(** * The PDF viewer page ([src/app/page.tsx])

  A shallow embedding of the page renderer [PageCanvas] and of the session
  controller [PDFViewerPage], and the properties of the written
  specification that were checked against them.

  JavaScript numbers are IEEE 754 binary64 values; they are embedded as
  Rocq's primitive [float]s, whose operations are the same binary64
  operations, so concrete renders and zoom steps evaluate to the very
  doubles the browser computes. *)

From Stdlib Require Import ZArith Bool List String Lia Permutation.
From Stdlib Require Import Floats DecimalString.
Import ListNotations.

Set Warnings "-inexact-float".

Notation "x |> f" := (f x) (at level 45, left associativity, only parsing).

(** ** JavaScript numbers *)

Module JS.

Open Scope float_scope.

(** The binary64 value nearest to an integer (ties to even). *)
Definition Z2SF (z : Z) : spec_float := binary_normalize prec emax z 0 false.
Definition Z2float (z : Z) : float := SF2Prim (Z2SF z).

(** [Math.max(a, b)]: NaN if either argument is NaN; [+0] is larger
    than [-0]. *)
Definition Math_max (a b : float) : float :=
  if is_nan a || is_nan b then nan
  else if a <? b then b
  else if b <? a then a
  else if get_sign a then b else a.

(** [Math.min(a, b)]: NaN if either argument is NaN; [-0] is smaller
    than [+0]. *)
Definition Math_min (a b : float) : float :=
  if is_nan a || is_nan b then nan
  else if a <? b then a
  else if b <? a then b
  else if get_sign a then a else b.

(** [Math.floor(x)].  A finite nonzero double is [±m·2^e]; with [e >= 0]
    it is already an integer.  NaN, the infinities and the zeros are
    returned as they are. *)
Definition Math_floor (x : float) : float :=
  match Prim2SF x with
  | S754_finite s m e =>
      if (0 <=? e)%Z then x
      else
        let d := (2 ^ (- e))%Z in
        if s then - Z2float ((Z.pos m + d - 1) / d)
        else Z2float (Z.pos m / d)
  | _ => x
  end.

(** The text [Number.prototype.toFixed] returns, kept structured:
    ["NaN"], ["Infinity"] with its sign, a decimal numeral with [digits]
    digits after the point whose digit string (point removed) is the
    integer [n], or, from 1e21 on, the shortest round-trip numeral of the
    number itself. *)
Inductive NumText :=
| TxtNaN
| TxtInfinity (neg : bool)
| TxtDecimal (neg : bool) (n : Z) (digits : nat)
| TxtShortest (x : float).

(** [x.toFixed(f)]: [n] is the integer for which [n / 10^f - |x|] is
    closest to zero, the larger one on a tie, that is
    [floor (|x|·10^f + 1/2)], computed exactly from [|x| = m·2^e]. *)
Definition toFixed (x : float) (f : nat) : NumText :=
  match Prim2SF x with
  | S754_nan => TxtNaN
  | S754_infinity s => TxtInfinity s
  | S754_zero _ => TxtDecimal false 0 f
  | S754_finite s m e =>
      if 1e21 <=? abs x then TxtShortest x
      else
        let p := (10 ^ Z.of_nat f)%Z in
        let n := if (0 <=? e)%Z then (p * Z.pos m * 2 ^ e)%Z
                 else ((2 * p * Z.pos m + 2 ^ (- e)) / 2 ^ (1 - e))%Z in
        TxtDecimal s n f
  end.

(** An integer as an exact, unrounded binary value [m·2^0]. *)
Definition exactZ (z : Z) : spec_float :=
  match z with
  | Z0 => S754_zero false
  | Zpos m => S754_finite false m 0
  | Zneg m => S754_finite true m 0
  end.

(** Unary [+] on such a text: the decimal numeral [n / 10^digits] is
    rounded once to the nearest double, ties to even (the quotient of the
    two exact integers, correctly rounded). *)
Definition ToNumber (t : NumText) : float :=
  match t with
  | TxtNaN => nan
  | TxtInfinity s => if s then neg_infinity else infinity
  | TxtShortest x => x
  | TxtDecimal s n f =>
      let q := SF2Prim (SFdiv prec emax (exactZ n) (exactZ (10 ^ Z.of_nat f))) in
      if s then - q else q
  end.

(** Truthiness of a number: [0], [-0] and [NaN] are falsy. *)
Definition truthy (x : float) : bool := negb (is_nan x || is_zero x).

(** [Object.is] on numbers, the comparison React applies to hook
    dependencies. *)
Definition Object_is (a b : float) : bool := Leibniz.eqb a b.

End JS.

(** ** The pdf.js objects the page uses

  The library is a collaborator: a document and a page are records of
  the operations the page calls on them.  A rejected promise is [None]. *)

Module PdfJs.

Record PageViewport := { width : float; height : float }.

(** A page: its viewport at a scale, and whether the promise of
    [page.render({ canvasContext, viewport, transform })] resolves
    ([true]) or rejects. *)
Record PDFPageProxy := {
  getViewport : float -> PageViewport;
  render : PageViewport -> list float -> bool
}.

Record PDFDocumentProxy := {
  handle : nat;                          (* object identity *)
  numPages : nat;
  getPage : nat -> option PDFPageProxy
}.

(** Modelled from the spec: the library's page geometry.  The viewport
    of an unrotated page at a scale is its native (scale-1) size times the
    scale ("surface logical dimensions equal floor(nativeWidth * scale) x
    floor(nativeHeight * scale)"); the draws of this page succeed. *)
Definition linearPage (nativeWidth nativeHeight : float) : PDFPageProxy :=
  {| getViewport := fun scale =>
       {| width := nativeWidth * scale; height := nativeHeight * scale |};
     render := fun _ _ => true |}.

(** A page of the same geometry whose draws fail. *)
Definition brokenPage (nativeWidth nativeHeight : float) : PDFPageProxy :=
  {| getViewport := getViewport (linearPage nativeWidth nativeHeight);
     render := fun _ _ => false |}.

(** A document all of whose [n] pages have the same native size. *)
Definition uniformDoc (h n : nat) (nativeWidth nativeHeight : float)
  : PDFDocumentProxy :=
  {| handle := h;
     numPages := n;
     getPage := fun k =>
       if (1 <=? k)%nat && (k <=? n)%nat
       then Some (linearPage nativeWidth nativeHeight) else None |}.

End PdfJs.

(** ** [PageCanvas]: the renderer of one page *)

Module PageCanvas.

Import JS PdfJs.
Open Scope float_scope.

Record Props := {
  pdf : PDFDocumentProxy;
  pageNumber : nat;
  fitWidth : float;
  zoom : float;
  dpr : float
}.

(** The template string [`${n}px`]. *)
Inductive CssLength := px (n : float).

(** The canvas element: the backing store size ([canvas.width],
    [canvas.height], as assigned), the CSS footprint
    ([canvas.style.width], [canvas.style.height]) and whether
    [getContext("2d")] yields a context. *)
Record Canvas := {
  canvas_width : float;
  canvas_height : float;
  style_width : option CssLength;
  style_height : option CssLength;
  context2d : bool
}.

Record PageSize := { wCSS : float; hCSS : float }.

(** What a run of [renderPage] can touch: the canvas behind [canvasRef]
    and the [pageSize] state. *)
Record Surface := {
  canvasRef : option Canvas;
  pageSize : PageSize
}.

(** Calls made on the library and on the canvas context. *)
Inductive Call :=
| getPage_call (doc : nat) (pageNumber : nat)
| getViewport_call (scale : float)
| getContext_call
| render_call (viewport : PageViewport) (transform : list float).

(** An async function body: it either runs on ([Next]), returns early
    ([Return]) or throws, rejecting its promise ([Reject]); it threads
    the surface and emits the calls it makes. *)
Inductive Outcome (A : Type) :=
| Next (a : A)
| Return
| Reject.
Arguments Next {A} a.
Arguments Return {A}.
Arguments Reject {A}.

Definition Async (A : Type) : Type := Surface -> Outcome A * Surface * list Call.

Definition ret {A} (a : A) : Async A := fun sf => (Next a, sf, []).

Definition bind {A B} (m : Async A) (k : A -> Async B) : Async B :=
  fun sf =>
    match m sf with
    | (Next a, sf1, cs1) =>
        match k a sf1 with
        | (o, sf2, cs2) => (o, sf2, cs1 ++ cs2)
        end
    | (Return, sf1, cs1) => (Return, sf1, cs1)
    | (Reject, sf1, cs1) => (Reject, sf1, cs1)
    end.

Notation "x <- m ;; k" := (bind m (fun x => k))
  (at level 61, m at next level, right associativity).
Notation "m ;; k" := (bind m (fun _ => k))
  (at level 61, right associativity).

Definition isNull {A} (o : option A) : bool :=
  match o with Some _ => false | None => true end.

Definition return_ {A} : Async A := fun sf => (Return, sf, []).
Definition throw {A} : Async A := fun sf => (Reject, sf, []).
Definition emit (c : Call) : Async unit := fun sf => (Next tt, sf, [c]).
Definition readCanvasRef : Async (option Canvas) :=
  fun sf => (Next (canvasRef sf), sf, []).
Definition writeCanvas (f : Canvas -> Canvas) : Async unit :=
  fun sf =>
    match canvasRef sf with
    | Some c => (Next tt, {| canvasRef := Some (f c); pageSize := pageSize sf |}, [])
    | None => (Reject, sf, [])
    end.
Definition setPageSize (ps : PageSize) : Async unit :=
  fun sf => (Next tt, {| canvasRef := canvasRef sf; pageSize := ps |}, []).

Definition set_canvas_width (w : float) (c : Canvas) : Canvas :=
  {| canvas_width := w; canvas_height := canvas_height c;
     style_width := style_width c; style_height := style_height c;
     context2d := context2d c |}.
Definition set_canvas_height (h : float) (c : Canvas) : Canvas :=
  {| canvas_width := canvas_width c; canvas_height := h;
     style_width := style_width c; style_height := style_height c;
     context2d := context2d c |}.
Definition set_style_width (l : CssLength) (c : Canvas) : Canvas :=
  {| canvas_width := canvas_width c; canvas_height := canvas_height c;
     style_width := Some l; style_height := style_height c;
     context2d := context2d c |}.
Definition set_style_height (l : CssLength) (c : Canvas) : Canvas :=
  {| canvas_width := canvas_width c; canvas_height := canvas_height c;
     style_width := style_width c; style_height := Some l;
     context2d := context2d c |}.

(** The settling of [await pdf.getPage(pageNumber)]: the page, or the
    rejection, which ends the run. *)
Definition await_page (fetched : option PDFPageProxy) : Async PDFPageProxy :=
  match fetched with
  | Some page => ret page
  | None => throw
  end.

(** [await page.render({ canvasContext, viewport, transform }).promise]:
    the call is made, and the run ends as that promise does. *)
Definition await_render (page : PDFPageProxy) (vp : PageViewport)
    (transform : list float) : Async unit :=
  emit (render_call vp transform) ;;
  if render page vp transform then ret tt else throw.

(** [page.getViewport({ scale })] *)
Definition call_getViewport (page : PDFPageProxy) (scale : float)
  : Async PageViewport :=
  emit (getViewport_call scale) ;; ret (getViewport page scale).

(** [canvas.getContext("2d")] *)
Definition call_getContext (c : Canvas) : Async bool :=
  emit getContext_call ;; ret (context2d c).

(** The scale of lines 73-75, from the native width. *)
Definition fitScale (fitWidth nativeWidth zoom : float) : float :=
  let baseScale := Math_max 0.1 (fitWidth / nativeWidth) in
  baseScale * zoom.

(** [renderPage] (lines 68-96), with the hook's closure made explicit:
    the props and [visible] it captured.  The function is suspended at
    the [await] of line 70, and whatever else is due runs before it goes
    on, so it comes in two parts.

    [renderPage_begin] is lines 69-70: the guard, then the call of
    [pdf.getPage].  [Next] means suspended on the fetch. *)
Definition renderPage_begin (p : Props) (visible : bool) : Async unit :=
  cur <- readCanvasRef ;;
  if negb visible || isNull cur then return_ else
  emit (getPage_call (handle (pdf p)) (pageNumber p)).

(** [renderPage_resume] is lines 70-95, from the moment the fetch
    settles.  [visible] is not tested again; [canvasRef.current] is read
    as it is by then.  After line 95 nothing is left to run, so the
    outcome of [page.render] is the outcome of the run. *)
Definition renderPage_resume (p : Props) (fetched : option PDFPageProxy)
  : Async unit :=
  page <- await_page fetched ;;
  vp1 <- call_getViewport page 1 ;;
  let scale := fitScale (fitWidth p) (width vp1) (zoom p) in
  vp <- call_getViewport page scale ;;
  canvas <- readCanvasRef ;;
  match canvas with
  | None => throw
  | Some canvas =>
      context <- call_getContext canvas ;;
      if negb context then return_ else
      let width := Math_floor (PdfJs.width vp * dpr p) in
      let height := Math_floor (PdfJs.height vp * dpr p) in
      writeCanvas (set_canvas_width width) ;;
      writeCanvas (set_canvas_height height) ;;
      writeCanvas (set_style_width (px (Math_floor (PdfJs.width vp)))) ;;
      writeCanvas (set_style_height (px (Math_floor (PdfJs.height vp)))) ;;
      setPageSize {| wCSS := Math_floor (PdfJs.width vp);
                     hCSS := Math_floor (PdfJs.height vp) |} ;;
      let transform := [dpr p; 0; 0; dpr p; 0; 0] in
      await_render page vp transform
  end.

(** A run that nothing interrupts: the fetch settles before anything
    else happens. *)
Definition renderPage (p : Props) (visible : bool) : Async unit :=
  renderPage_begin p visible ;;
  renderPage_resume p (getPage (pdf p) (pageNumber p)).

(** *** The component around it

    [renderPage] is a [useCallback] over
    [[pdf, pageNumber, fitWidth, zoom, dpr, visible]] and the effect of
    lines 98-100 depends on [renderPage] alone: after a commit the effect
    runs when one of the six dependencies is not [Object.is] the value of
    the previous commit, and on the first commit. *)

Definition deps_same (p q : Props) (v w : bool) : bool :=
  (handle (pdf p) =? handle (pdf q))%nat
  && (pageNumber p =? pageNumber q)%nat
  && Object_is (fitWidth p) (fitWidth q)
  && Object_is (zoom p) (zoom q)
  && Object_is (dpr p) (dpr q)
  && Bool.eqb v w.

Record Instance := {
  props : Props;
  visible : bool;                         (* useIntersection's state *)
  surface : Surface;
  committed : option (Props * bool)       (* dependencies of the last commit *)
}.

(** A fresh canvas element is 300 x 150 with no inline style. *)
Definition blankCanvas (ctx : bool) : Canvas :=
  {| canvas_width := 300; canvas_height := 150;
     style_width := None; style_height := None; context2d := ctx |}.

Definition blankSurface (ctx : bool) : Surface :=
  {| canvasRef := Some (blankCanvas ctx);
     pageSize := {| wCSS := 0; hCSS := 0 |} |}.

(** Commit of a render: run the effect if the dependencies changed.
    Here the run it starts is taken to its end before anything else
    happens; runs that are interrupted come under "Runs in flight". *)
Definition commit (i : Instance) : Instance * list Call :=
  let run :=
    match renderPage (props i) (visible i) (surface i) with
    | (_, sf, cs) =>
        ({| props := props i; visible := visible i; surface := sf;
            committed := Some (props i, visible i) |}, cs)
    end in
  match committed i with
  | Some (q, w) =>
      if deps_same (props i) q (visible i) w then (i, []) else run
  | None => run
  end.

(** What makes the component render again. *)
Inductive Event :=
| Intersect (isIntersecting : bool)   (* the observer's [setVisible] *)
| Rerender (p : Props).               (* the parent passes props *)

Definition receive (i : Instance) (ev : Event) : Instance :=
  match ev with
  | Intersect b =>
      {| props := props i; visible := b; surface := surface i;
         committed := committed i |}
  | Rerender p =>
      {| props := p; visible := visible i; surface := surface i;
         committed := committed i |}
  end.

Definition react (i : Instance) (ev : Event) : Instance * list Call :=
  commit (receive i ev).

(** First render: [visible] starts false, the canvas is attached to
    [canvasRef] before effects run. *)
Definition mount (p : Props) (ctx : bool) : Instance * list Call :=
  commit {| props := p; visible := false; surface := blankSurface ctx;
            committed := None |}.

Fixpoint reacts (i : Instance) (evs : list Event) : Instance * list Call :=
  match evs with
  | [] => (i, [])
  | ev :: evs' =>
      let (i1, cs1) := react i ev in
      let (i2, cs2) := reacts i1 evs' in
      (i2, cs1 ++ cs2)
  end.

(** *** Runs in flight

    The component with the runs of [renderPage] that are suspended on
    their fetch, oldest first, each with the props it captured.  An event
    re-renders the component and, when a dependency changed, begins a
    run; a fetch settles whenever pdf.js is done, and resumes its run on
    the surface as it is by then. *)
Record Running := {
  current : Instance;
  suspended : list Props
}.

Inductive Tick :=
| Happens (ev : Event)
| Fetched (k : nat).                   (* the fetch of the k-th suspended run *)

(** Commit of a render: the effect begins a run if the dependencies
    changed. *)
Definition begin_commit (r : Running) : Running * list Call :=
  let i := current r in
  let run :=
    match renderPage_begin (props i) (visible i) (surface i) with
    | (o, sf, cs) =>
        ({| current := {| props := props i; visible := visible i; surface := sf;
                          committed := Some (props i, visible i) |};
            suspended := suspended r
                         ++ match o with Next _ => [props i] | _ => [] end |},
         cs)
    end in
  match committed i with
  | Some (q, w) =>
      if deps_same (props i) q (visible i) w then (r, []) else run
  | None => run
  end.

Definition start (r : Running) (ev : Event) : Running * list Call :=
  begin_commit {| current := receive (current r) ev; suspended := suspended r |}.

Definition resume (r : Running) (k : nat) : Running * list Call :=
  match nth_error (suspended r) k with
  | None => (r, [])
  | Some q =>
      match renderPage_resume q (getPage (pdf q) (pageNumber q))
              (surface (current r)) with
      | (_, sf, cs) =>
          ({| current := {| props := props (current r);
                            visible := visible (current r);
                            surface := sf;
                            committed := committed (current r) |};
              suspended := firstn k (suspended r) ++ skipn (S k) (suspended r) |},
           cs)
      end
  end.

Definition tick (r : Running) (t : Tick) : Running * list Call :=
  match t with
  | Happens ev => start r ev
  | Fetched k => resume r k
  end.

Fixpoint ticks (r : Running) (ts : list Tick) : Running * list Call :=
  match ts with
  | [] => (r, [])
  | t :: ts' =>
      let (r1, cs1) := tick r t in
      let (r2, cs2) := ticks r1 ts' in
      (r2, cs1 ++ cs2)
  end.

(** First render, with nothing in flight yet. *)
Definition mounted (p : Props) (ctx : bool) : Running :=
  fst (begin_commit
         {| current := {| props := p; visible := false; surface := blankSurface ctx;
                          committed := None |};
            suspended := [] |}).

(** An instance between events: its effect has run for the current
    dependencies and its canvas is attached. *)
Definition settled (i : Instance) : Prop :=
  match committed i with
  | Some (q, w) => deps_same (props i) q (visible i) w = true
  | None => False
  end /\ canvasRef (surface i) <> None.

Definition is_render (c : Call) : bool :=
  match c with render_call _ _ => true | _ => false end.
Definition is_getPage (c : Call) : bool :=
  match c with getPage_call _ _ => true | _ => false end.
Definition is_getViewport (c : Call) : bool :=
  match c with getViewport_call _ => true | _ => false end.

End PageCanvas.

(** ** [PDFViewerPage]: the session controller *)

Module Viewer.

Import JS PdfJs.
Open Scope string_scope.

Record File := {
  name : string;
  type : string;       (* MIME type *)
  data : string        (* raw bytes, read by pdf.js only *)
}.

(** Blob URLs are handed out by a resource-tracking allocator: every
    [URL.createObjectURL] yields a URL never issued before, and every
    [URL.revokeObjectURL] is recorded, repeated releases included. *)
Definition BlobUrl := nat.

Record UrlRegistry := {
  next : nat;
  issued : list BlobUrl;
  revoked : list BlobUrl
}.

Definition createObjectURL (f : File) (r : UrlRegistry) : BlobUrl * UrlRegistry :=
  (next r,
   {| next := S (next r); issued := issued r ++ [next r]; revoked := revoked r |}).

Definition revokeObjectURL (u : BlobUrl) (r : UrlRegistry) : UrlRegistry :=
  {| next := next r; issued := issued r; revoked := revoked r ++ [u] |}.

(** The [useState] cells of the component (lines 116-127).  A blob URL is
    a nonempty string, so the test [if (pdfUrl)] is the test for [Some].
    The setters called by one handler, or by one continuation after an
    [await], take effect together, in one render. *)
Record State := {
  fileName : option string;
  status : string;
  isBusy : bool;
  pdfUrl : option BlobUrl;
  numPages : nat;
  pdfDoc : option PDFDocumentProxy;
  zoom : float;
  containerWidth : float
}.

Definition setFileName v (s : State) : State :=
  {| fileName := v; status := status s; isBusy := isBusy s; pdfUrl := pdfUrl s;
     numPages := numPages s; pdfDoc := pdfDoc s; zoom := zoom s;
     containerWidth := containerWidth s |}.
Definition setStatus v (s : State) : State :=
  {| fileName := fileName s; status := v; isBusy := isBusy s; pdfUrl := pdfUrl s;
     numPages := numPages s; pdfDoc := pdfDoc s; zoom := zoom s;
     containerWidth := containerWidth s |}.
Definition setIsBusy v (s : State) : State :=
  {| fileName := fileName s; status := status s; isBusy := v; pdfUrl := pdfUrl s;
     numPages := numPages s; pdfDoc := pdfDoc s; zoom := zoom s;
     containerWidth := containerWidth s |}.
Definition setPdfUrl v (s : State) : State :=
  {| fileName := fileName s; status := status s; isBusy := isBusy s; pdfUrl := v;
     numPages := numPages s; pdfDoc := pdfDoc s; zoom := zoom s;
     containerWidth := containerWidth s |}.
Definition setNumPages v (s : State) : State :=
  {| fileName := fileName s; status := status s; isBusy := isBusy s; pdfUrl := pdfUrl s;
     numPages := v; pdfDoc := pdfDoc s; zoom := zoom s;
     containerWidth := containerWidth s |}.
Definition setPdfDoc v (s : State) : State :=
  {| fileName := fileName s; status := status s; isBusy := isBusy s; pdfUrl := pdfUrl s;
     numPages := numPages s; pdfDoc := v; zoom := zoom s;
     containerWidth := containerWidth s |}.
Definition setZoom (f : float -> float) (s : State) : State :=
  {| fileName := fileName s; status := status s; isBusy := isBusy s; pdfUrl := pdfUrl s;
     numPages := numPages s; pdfDoc := pdfDoc s; zoom := f (zoom s);
     containerWidth := containerWidth s |}.
Definition setContainerWidth v (s : State) : State :=
  {| fileName := fileName s; status := status s; isBusy := isBusy s; pdfUrl := pdfUrl s;
     numPages := numPages s; pdfDoc := pdfDoc s; zoom := zoom s;
     containerWidth := v |}.

(** The state cells, the URL allocator, the [loadFile] calls still
    awaiting pdf.js, and the number of [console.error] lines. *)
Record World := {
  session : State;
  urls : UrlRegistry;
  inflight : nat;
  consoleErrors : nat
}.

Definition initialStatus : string := "Henüz dosya seçilmedi.".
Definition loadingStatus : string := "PDF yükleniyor…".
Definition failedStatus : string := "Hata: PDF yüklenemedi.".
Definition clearedStatus : string := "Temizlendi. Yeni bir PDF yükleyin.".
Definition loadedStatus (n : nat) : string :=
  "Yüklendi: " ++ NilZero.string_of_uint (Nat.to_uint n) ++ " sayfa".

Definition initialState : State :=
  {| fileName := None; status := initialStatus; isBusy := false; pdfUrl := None;
     numPages := 0; pdfDoc := None; zoom := 1%float; containerWidth := 900%float |}.

Definition initialWorld : World :=
  {| session := initialState;
     urls := {| next := 0; issued := []; revoked := [] |};
     inflight := 0; consoleErrors := 0 |}.

(** [loadFile] up to its first [await] (lines 135-148); [None] is the
    missing file of the guard on line 135. *)
Definition loadFile_begin (file : option File) (w : World) : World :=
  match file with
  | None => w
  | Some file =>
      let released :=
        match pdfUrl (session w) with
        | Some u => revokeObjectURL u (urls w)
        | None => urls w
        end in
      let (localUrl, registry) := createObjectURL file released in
      {| session := session w
           |> setPdfUrl (Some localUrl)
           |> setIsBusy true
           |> setStatus loadingStatus
           |> setFileName (Some (name file))
           |> setPdfDoc None
           |> setNumPages 0;
         urls := registry;
         inflight := S (inflight w);
         consoleErrors := consoleErrors w |}
  end.

(** [loadFile] from the point where pdf.js settles (lines 151-160):
    [Some pdf] when [task.promise] resolves, [None] when the import, the
    read or the parse rejects. *)
Definition loadFile_settle (r : option PDFDocumentProxy) (w : World) : World :=
  match r with
  | Some pdf =>
      {| session := session w
           |> setPdfDoc (Some pdf)
           |> setNumPages (PdfJs.numPages pdf)
           |> setStatus (loadedStatus (PdfJs.numPages pdf))
           |> setIsBusy false;
         urls := urls w;
         inflight := pred (inflight w);
         consoleErrors := consoleErrors w |}
  | None =>
      {| session := session w
           |> setStatus failedStatus
           |> setIsBusy false;
         urls := urls w;
         inflight := pred (inflight w);
         consoleErrors := S (consoleErrors w) |}
  end.

(** A [loadFile] that runs to completion before anything else happens;
    [getDocument] is what pdf.js makes of the file. *)
Definition loadFile (getDocument : File -> option PDFDocumentProxy)
    (file : option File) (w : World) : World :=
  match file with
  | None => w
  | Some f => loadFile_settle (getDocument f) (loadFile_begin file w)
  end.

(** [e.target.files?.[0]] and [e.dataTransfer.files?.[0]] *)
Definition first (files : list File) : option File :=
  match files with
  | [] => None
  | f :: _ => Some f
  end.

(** The two handlers (lines 163-172), over the [loadFile] they call: its
    synchronous part in the transition system below, the whole of it when
    a load runs alone. *)
Definition onInputChange_with (load : option File -> World -> World)
    (files : list File) (w : World) : World :=
  match first files with
  | Some f => load (Some f) w
  | None => w
  end.

Definition onDrop_with (load : option File -> World -> World)
    (files : list File) (w : World) : World :=
  match first files with
  | Some f => if type f =? "application/pdf" then load (Some f) w else w
  | None => w
  end.

Definition onInputChange := onInputChange_with loadFile_begin.
Definition onDrop := onDrop_with loadFile_begin.

Definition handleClear (w : World) : World :=
  {| session := session w
       |> setPdfUrl None
       |> setPdfDoc None
       |> setNumPages 0
       |> setFileName None
       |> setStatus clearedStatus;
     urls := match pdfUrl (session w) with
             | Some u => revokeObjectURL u (urls w)
             | None => urls w
             end;
     inflight := inflight w;
     consoleErrors := consoleErrors w |}.

Definition zoomOutStep (z : float) : float :=
  Math_max 0.5 (ToNumber (toFixed (z - 0.1) 2)).
Definition zoomInStep (z : float) : float :=
  Math_min 3 (ToNumber (toFixed (z + 0.1) 2)).

Definition zoomOut : State -> State := setZoom zoomOutStep.
Definition zoomIn : State -> State := setZoom zoomInStep.
Definition fitWidth : State -> State := setZoom (fun _ => 1%float).

(** The resize observer's callback (lines 124-126). *)
Definition onResize (rectWidth : float) : State -> State :=
  setContainerWidth (Math_min 1200 rectWidth).

(** [dpr] (line 129); [None] stands for a missing [window]. *)
Definition dprOf (devicePixelRatio : option float) : float :=
  match devicePixelRatio with
  | Some r => Math_min (if truthy r then r else 1%float) 2
  | None => 1%float
  end.

(** The page renderers of lines 246-259. *)
Definition pages (dpr : float) (s : State) : list PageCanvas.Props :=
  match pdfDoc s with
  | Some d =>
      map (fun p =>
             {| PageCanvas.pdf := d;
                PageCanvas.pageNumber := p;
                PageCanvas.fitWidth := (containerWidth s - 16)%float;
                PageCanvas.zoom := zoom s;
                PageCanvas.dpr := dpr |})
          (seq 1 (numPages s))
  | None => []
  end.

(** *** The session as a transition system

    User events and the settling of a pending [loadFile], in any order.
    [Settle] does nothing when no [loadFile] is pending; the toolbar is
    only there while a document is shown, [Clear] is allowed in every
    state all the same. *)
Inductive Action :=
| InputChange (files : list File)
| Drop (files : list File)
| Settle (r : option PDFDocumentProxy)
| Clear
| ZoomOut
| ZoomIn
| FitWidth
| Resize (rectWidth : float).

Definition onSession (f : State -> State) (w : World) : World :=
  {| session := f (session w); urls := urls w; inflight := inflight w;
     consoleErrors := consoleErrors w |}.

Definition step (w : World) (a : Action) : World :=
  match a with
  | InputChange files => onInputChange files w
  | Drop files => onDrop files w
  | Settle r => match inflight w with
                | O => w
                | S _ => loadFile_settle r w
                end
  | Clear => handleClear w
  | ZoomOut => onSession zoomOut w
  | ZoomIn => onSession zoomIn w
  | FitWidth => onSession fitWidth w
  | Resize rw => onSession (onResize rw) w
  end.

Definition run (acts : list Action) (w : World) : World := fold_left step acts w.

(** The URL the session still holds. *)
Definition held (w : World) : list BlobUrl :=
  match pdfUrl (session w) with
  | Some u => [u]
  | None => []
  end.

(** The [Empty] state of the session: nothing selected, nothing shown. *)
Definition isEmpty (s : State) : Prop :=
  fileName s = None /\ pdfUrl s = None /\ pdfDoc s = None /\ numPages s = 0%nat.

(** The page count belongs to the handle that is shown. *)
Definition coherent (s : State) : Prop :=
  match pdfDoc s with
  | Some d => numPages s = PdfJs.numPages d
  | None => numPages s = 0%nat
  end.

(** The nearest double to [k / 10], and the zoom levels 0.5, 0.6, ...,
    3.0 as tenths. *)
Definition tenth (k : Z) : float := (Z2float k / 10)%float.
Definition zoomLevels : list Z := map Z.of_nat (seq 5 26).

Definition stepsOnGrid (k : Z) : bool :=
  Leibniz.eqb (zoomOutStep (tenth k)) (tenth (Z.max 5 (k - 1)))
  && Leibniz.eqb (zoomInStep (tenth k)) (tenth (Z.min 30 (k + 1)))
  && (0.5 <=? tenth k)%float && (tenth k <=? 3)%float.

(** The allocator's books balance: no URL was issued twice, and the
    issued URLs are the released ones plus the one still held. *)
Definition balanced (w : World) : Prop :=
  NoDup (issued (urls w))
  /\ Permutation (issued (urls w)) (held w ++ revoked (urls w))
  /\ (forall u, In u (issued (urls w)) -> (u < next (urls w))%nat).

End Viewer.

(** ** Sample inputs *)

Module Sample.

Import PdfJs.

(** A three-page US Letter document (612 x 792 points). *)
Definition letterDoc : PDFDocumentProxy := uniformDoc 1 3 612 792.

(** Its first page in a 900 wide container (fit width 900 - 16). *)
Definition letterProps (zoom dpr : float) : PageCanvas.Props :=
  {| PageCanvas.pdf := letterDoc; PageCanvas.pageNumber := 1;
     PageCanvas.fitWidth := 884; PageCanvas.zoom := zoom;
     PageCanvas.dpr := dpr |}.

Definition report : Viewer.File :=
  {| Viewer.name := "report.pdf"; Viewer.type := "application/pdf";
     Viewer.data := "%PDF-1.7" |}.

Definition notes : Viewer.File :=
  {| Viewer.name := "notes.txt"; Viewer.type := "text/plain";
     Viewer.data := "hello" |}.

Definition slides : Viewer.File :=
  {| Viewer.name := "slides.pdf"; Viewer.type := "application/pdf";
     Viewer.data := "%PDF-1.4" |}.



(** The same document with pages whose draws fail. *)
Definition brokenDoc : PDFDocumentProxy :=
  {| handle := 3; numPages := 1;
     getPage := fun _ => Some (brokenPage 612 792) |}.

End Sample.

(** ** The rest of the page

    The lazy pdf.js import, the two observer hooks, what the JSX shows of
    the state, and sessions whose loads run one at a time. *)

Module Rest.

Import JS PdfJs.
Open Scope string_scope.

(** The imported pdf.js module, as far as the page touches it: which
    module object it is and its [GlobalWorkerOptions.workerSrc]. *)
Record PdfjsModule := {
  moduleId : nat;
  workerSrc : string
}.

(** The module-level cache [_pdfjs] (line 7) and the number of
    [import("pdfjs-dist")] evaluated so far. *)
Record Loader := {
  _pdfjs : option PdfjsModule;
  imports : nat
}.

Definition freshLoader : Loader := {| _pdfjs := None; imports := 0 |}.

(** [ensurePdfjs] (lines 8-14), run to completion; [imported] is how the
    dynamic import settles if it is evaluated: the module, or [None] for
    a rejection, which the caller sees. *)
Definition ensurePdfjs (imported : option PdfjsModule) (l : Loader)
  : option PdfjsModule * Loader :=
  match _pdfjs l with
  | Some m => (Some m, l)
  | None =>
      match imported with
      | Some m =>
          let m := {| moduleId := moduleId m; workerSrc := "/pdf.worker.min.mjs" |} in
          (Some m, {| _pdfjs := Some m; imports := S (imports l) |})
      | None => (None, {| _pdfjs := None; imports := S (imports l) |})
      end
  end.

(** Successive calls, each with the way its import would settle. *)
Fixpoint ensureEach (imported : list (option PdfjsModule)) (l : Loader)
  : list (option PdfjsModule) * Loader :=
  match imported with
  | [] => ([], l)
  | i :: rest =>
      let (r, l1) := ensurePdfjs i l in
      let (rs, l2) := ensureEach rest l1 in
      (r :: rs, l2)
  end.

(** The resize observer's callback (lines 21-24): the first entry's
    content rectangle goes to [cb], an empty batch to nobody. *)
Definition resizeObserved (widths : list float) (s : Viewer.State) : Viewer.State :=
  match widths with
  | [] => s
  | w :: _ => Viewer.onResize w s
  end.

(** The intersection observer's callback (line 40): [setVisible] for
    every entry in turn, so the last one stays. *)
Definition intersectionObserved (entries : list bool) (visible : bool) : bool :=
  fold_left (fun _ isIntersecting => isIntersecting) entries visible.

(** The batch as the renderer sees it: one render with the final value. *)
Definition observe (i : PageCanvas.Instance) (entries : list bool)
  : PageCanvas.Instance * list PageCanvas.Call :=
  PageCanvas.react i
    (PageCanvas.Intersect (intersectionObserved entries (PageCanvas.visible i))).

(** The width of the frame around the canvas (line 106):
    [pageSize.wCSS || fitWidth]. *)
Definition frameWidth (p : PageCanvas.Props) (sf : PageCanvas.Surface) : float :=
  let w := PageCanvas.wCSS (PageCanvas.pageSize sf) in
  if truthy w then w else PageCanvas.fitWidth p.

(** The zoom read-out of line 237, [(zoom*100).toFixed(0)], before the
    percent sign. *)
Definition zoomLabel (s : Viewer.State) : NumText :=
  toFixed (Viewer.zoom s * 100)%float 0.

(** The toolbar and the page list are rendered under [pdfDoc &&]
    (lines 231, 246), the file name line under [fileName &&] (line 222). *)
Definition toolbarShown (s : Viewer.State) : bool :=
  match Viewer.pdfDoc s with Some _ => true | None => false end.

(** What the user does when every load is left to finish before the
    next action: a pick or a drop together with the way pdf.js settles
    it, or a toolbar button, or a resize of the container. *)
Inductive Gesture :=
| PickAndWait (files : list Viewer.File) (r : option PDFDocumentProxy)
| DropAndWait (files : list Viewer.File) (r : option PDFDocumentProxy)
| PressClear
| PressZoomOut
| PressZoomIn
| PressFitWidth
| ResizeTo (widths : list float).

Definition expand (g : Gesture) : list Viewer.Action :=
  match g with
  | PickAndWait files r => [Viewer.InputChange files; Viewer.Settle r]
  | DropAndWait files r => [Viewer.Drop files; Viewer.Settle r]
  | PressClear => [Viewer.Clear]
  | PressZoomOut => [Viewer.ZoomOut]
  | PressZoomIn => [Viewer.ZoomIn]
  | PressFitWidth => [Viewer.FitWidth]
  | ResizeTo widths =>
      match widths with
      | [] => []
      | w :: _ => [Viewer.Resize w]
      end
  end.

Definition runAlone (gs : list Gesture) (w : Viewer.World) : Viewer.World :=
  Viewer.run (flat_map expand gs) w.

(** Whether an action begins a load: a pick with a file, or a drop
    whose first file is a PDF. *)
Definition begins (a : Viewer.Action) : bool :=
  match a with
  | Viewer.InputChange files =>
      match Viewer.first files with Some _ => true | None => false end
  | Viewer.Drop files =>
      match Viewer.first files with
      | Some f => (Viewer.type f =? "application/pdf")
      | None => false
      end
  | _ => false
  end.





(** The states a session rests in between gestures: nothing pending,
    not busy, and either empty (initial or cleared), or failed, or
    loaded, each with its status line. *)
Definition atRest (w : Viewer.World) : Prop :=
  let s := Viewer.session w in
  Viewer.inflight w = 0%nat
  /\ Viewer.isBusy s = false
  /\ ((Viewer.isEmpty s
       /\ (Viewer.status s = Viewer.initialStatus
           \/ Viewer.status s = Viewer.clearedStatus))
      \/ (Viewer.status s = Viewer.failedStatus
          /\ Viewer.pdfDoc s = None /\ Viewer.numPages s = 0%nat
          /\ Viewer.fileName s <> None /\ Viewer.pdfUrl s <> None)
      \/ (exists d,
            Viewer.pdfDoc s = Some d
            /\ Viewer.numPages s = PdfJs.numPages d
            /\ Viewer.status s = Viewer.loadedStatus (PdfJs.numPages d)
            /\ Viewer.fileName s <> None /\ Viewer.pdfUrl s <> None)).

(** URLs are numbered as they are issued and released oldest first: the
    released ones, then the one still held. *)
Definition inOrder (w : Viewer.World) : Prop :=
  Viewer.issued (Viewer.urls w) = seq 0 (Viewer.next (Viewer.urls w))
  /\ Viewer.issued (Viewer.urls w)
     = (Viewer.revoked (Viewer.urls w) ++ Viewer.held w)%list.

End Rest.

(** * Properties *)

Import JS PdfJs.

(** ** The number operations on known values *)

Section Numbers.

Open Scope float_scope.

Example toFixed_rounds_the_double :
  toFixed 1.005 2 = TxtDecimal false 100 2      (* "1.00": 1.005 is below 1.005 *)
  /\ toFixed 2.5 0 = TxtDecimal false 3 0       (* "3": a tie goes up *)
  /\ toFixed (-0.001) 2 = TxtDecimal true 0 2   (* "-0.00" *)
  /\ toFixed 1e21 2 = TxtShortest 1e21.
Proof. repeat split. Qed.

Example unary_plus_of_toFixed :
  ToNumber (toFixed 0.30000000000000004 2) = 0.3
  /\ ToNumber (toFixed (0.5 - 0.1) 2) = 0.4
  /\ ToNumber (toFixed (3 + 0.1) 2) = 3.1
  /\ ToNumber (toFixed 2.675 2) = 2.67.
Proof. repeat split. Qed.

Example floor_values :
  Math_floor 1060.8 = 1060 /\ Math_floor (-0.5) = -1 /\ Math_floor 884 = 884
  /\ Math_floor 0.3 = 0 /\ Math_floor infinity = infinity.
Proof. repeat split. Qed.

Example max_min_values :
  Math_max 0.1 (884 / 612) = 884 / 612 /\ Math_max 0.1 (5 / 612) = 0.1
  /\ Math_max 0.5 0.4 = 0.5 /\ Math_min 3 3.1 = 3
  /\ Math_min 1200 1440 = 1200.
Proof. repeat split. Qed.

End Numbers.

(** ** The renderer *)

Section Renderer.

Import PageCanvas.
Open Scope float_scope.

(** [renderPage] path by path. *)
Lemma renderPage_unfold (p : Props) (v : bool) (sf : Surface) :
  renderPage p v sf =
  match v, canvasRef sf with
  | false, _ => (Return, sf, [])
  | true, None => (Return, sf, [])
  | true, Some c =>
      match getPage (pdf p) (pageNumber p) with
      | None => (Reject, sf, [getPage_call (handle (pdf p)) (pageNumber p)])
      | Some page =>
          let scale := fitScale (fitWidth p) (width (getViewport page 1)) (zoom p) in
          let vp := getViewport page scale in
          let asked := [getPage_call (handle (pdf p)) (pageNumber p);
                        getViewport_call 1; getViewport_call scale;
                        getContext_call] in
          if context2d c
          then ((if render page vp [dpr p; 0; 0; dpr p; 0; 0]
                 then Next tt else Reject),
                {| canvasRef := Some
                     {| canvas_width := Math_floor (width vp * dpr p);
                        canvas_height := Math_floor (height vp * dpr p);
                        style_width := Some (px (Math_floor (width vp)));
                        style_height := Some (px (Math_floor (height vp)));
                        context2d := true |};
                   pageSize := {| wCSS := Math_floor (width vp);
                                  hCSS := Math_floor (height vp) |} |},
                asked ++ [render_call vp [dpr p; 0; 0; dpr p; 0; 0]])
          else (Return, sf, asked)
      end
  end.
Proof.
  destruct sf as [[c|] ps], v; try reflexivity.
  unfold renderPage, renderPage_begin, renderPage_resume, bind, await_page,
    readCanvasRef; cbn.
  destruct (getPage (pdf p) (pageNumber p)) as [page|]; [|reflexivity].
  cbn. destruct c as [cw ch sw sh ctx]; cbn.
  destruct ctx; [|reflexivity].
  destruct (render page _ _); reflexivity.
Qed.

Lemma renderPage_hidden (p : Props) (sf : Surface) :
  renderPage p false sf = (Return, sf, []).
Proof. rewrite renderPage_unfold. reflexivity. Qed.

Lemma renderPage_keeps_canvas (p : Props) (v : bool) (sf : Surface) :
  canvasRef sf <> None ->
  canvasRef (snd (fst (renderPage p v sf))) <> None.
Proof.
  intro H. rewrite renderPage_unfold.
  destruct v; [|exact H].
  destruct (canvasRef sf) as [c|] eqn:E; [|congruence].
  destruct (getPage (pdf p) (pageNumber p)); cbn; [|congruence].
  destruct (context2d c); cbn; congruence.
Qed.

Lemma Object_is_refl (x : float) : Object_is x x = true.
Proof. unfold Object_is. apply FloatAxioms.Leibniz.eqb_spec. reflexivity. Qed.

Lemma deps_same_refl (p : Props) (v : bool) : deps_same p p v v = true.
Proof.
  unfold deps_same.
  rewrite !Nat.eqb_refl, !Object_is_refl, Bool.eqb_reflx. reflexivity.
Qed.

Lemma deps_same_flip (p q : Props) (v w : bool) :
  deps_same p q v w = true -> deps_same p q (negb v) w = false.
Proof.
  unfold deps_same. intro H.
  apply andb_prop in H. destruct H as [_ H].
  apply Bool.eqb_prop in H. subst w.
  destruct v; cbn; apply andb_false_r.
Qed.

Lemma commit_settled (i : Instance) :
  canvasRef (surface i) <> None -> settled (fst (commit i)).
Proof.
  intro H. unfold commit.
  pose proof (renderPage_keeps_canvas (props i) (visible i) (surface i) H) as K.
  destruct (renderPage (props i) (visible i) (surface i)) as [[o sf] cs].
  assert (R : settled {| props := props i; visible := visible i; surface := sf;
                         committed := Some (props i, visible i) |}).
  { split; [apply deps_same_refl | exact K]. }
  destruct (committed i) as [[q w]|] eqn:E; [|exact R].
  destruct (deps_same (props i) q (visible i) w) eqn:D; [|exact R].
  split; [|exact H]. cbn. rewrite E. exact D.
Qed.

Lemma commit_again (i : Instance) : settled i -> commit i = (i, []).
Proof.
  intros [H _]. unfold commit.
  destruct (committed i) as [[q w]|]; [|contradiction].
  rewrite H. reflexivity.
Qed.

Lemma react_settled (i : Instance) (ev : Event) :
  settled i -> settled (fst (react i ev)).
Proof.
  intros [_ H]. apply commit_settled. destruct ev; exact H.
Qed.

Lemma mount_settled (p : Props) (ctx : bool) : settled (fst (mount p ctx)).
Proof. apply commit_settled. cbn. congruence. Qed.

Lemma reacts_settled (evs : list Event) :
  forall i, settled i -> settled (fst (reacts i evs)).
Proof.
  induction evs as [|ev evs IH]; intros i H; [exact H|].
  cbn. pose proof (react_settled i ev H) as H1.
  destruct (react i ev) as [i1 cs1].
  specialize (IH i1 H1).
  destruct (reacts i1 evs) as [i2 cs2]. exact IH.
Qed.

(** *** The scale and the sizes of a draw *)

(** C1. A visible renderer with its canvas attached asks the page for
    its viewport twice: at scale 1, for the native width, and at
    [max(0.1, fitWidth / nativeWidth) * zoom]; the viewport it hands to
    [page.render] is the one at that scale.  This holds for every fit
    width, zoom and native width, the positive ones included. *)
Theorem render_scale (p : Props) (sf : Surface) (c : Canvas) (page : PDFPageProxy) :
  canvasRef sf = Some c ->
  getPage (pdf p) (pageNumber p) = Some page ->
  let nativeWidth := width (getViewport page 1) in
  let scale := Math_max 0.1 (fitWidth p / nativeWidth) * zoom p in
  let calls := snd (renderPage p true sf) in
  filter is_getViewport calls = [getViewport_call 1; getViewport_call scale]
  /\ (context2d c = true ->
      filter is_render calls
      = [render_call (getViewport page scale) [dpr p; 0; 0; dpr p; 0; 0]]).
Proof.
  intros Hc Hp nativeWidth scale calls. subst calls.
  rewrite renderPage_unfold, Hc, Hp. cbv zeta.
  destruct (context2d c); split; try reflexivity; intro; discriminate.
Qed.

Lemma render_scale_witness :
  let calls := snd (renderPage (Sample.letterProps 1.2 2) true (blankSurface true)) in
  filter is_getViewport calls
  = [getViewport_call 1; getViewport_call (Math_max 0.1 (884 / (612 * 1)) * 1.2)]
  /\ (true = true -> filter is_render calls
      = [render_call {| width := 612 * (Math_max 0.1 (884 / (612 * 1)) * 1.2);
                        height := 792 * (Math_max 0.1 (884 / (612 * 1)) * 1.2) |}
                     [2; 0; 0; 2; 0; 0]]).
Proof.
  exact (render_scale (Sample.letterProps 1.2 2) (blankSurface true)
           (blankCanvas true) (linearPage 612 792) eq_refl eq_refl).
Defined.

(** C2. A draw sizes the backing store of the canvas to
    [floor(vp.width * dpr)] x [floor(vp.height * dpr)] and its CSS footprint
    to [floor(vp.width)]px x [floor(vp.height)]px, where [vp] is the
    page's viewport at the computed scale; the same floored size is
    recorded as the page size. *)
Theorem canvas_sizes (p : Props) (sf : Surface) (c : Canvas) (page : PDFPageProxy) :
  canvasRef sf = Some c ->
  getPage (pdf p) (pageNumber p) = Some page ->
  context2d c = true ->
  let scale := fitScale (fitWidth p) (width (getViewport page 1)) (zoom p) in
  let vp := getViewport page scale in
  let after := snd (fst (renderPage p true sf)) in
  exists c',
    canvasRef after = Some c'
    /\ canvas_width c' = Math_floor (width vp * dpr p)
    /\ canvas_height c' = Math_floor (height vp * dpr p)
    /\ style_width c' = Some (px (Math_floor (width vp)))
    /\ style_height c' = Some (px (Math_floor (height vp)))
    /\ pageSize after = {| wCSS := Math_floor (width vp);
                           hCSS := Math_floor (height vp) |}.
Proof.
  intros Hc Hp Hx scale vp after. subst after.
  rewrite renderPage_unfold, Hc, Hp. cbv zeta. rewrite Hx. cbn.
  eexists. repeat split.
Qed.

Lemma canvas_sizes_witness :
  exists c',
    canvasRef (snd (fst (renderPage (Sample.letterProps 1 1) true (blankSurface true))))
    = Some c'
    /\ canvas_width c' = 884 /\ canvas_height c' = 1144
    /\ style_width c' = Some (px 884) /\ style_height c' = Some (px 1144)
    /\ pageSize (snd (fst (renderPage (Sample.letterProps 1 1) true (blankSurface true))))
       = {| wCSS := 884; hCSS := 1144 |}.
Proof.
  exact (canvas_sizes (Sample.letterProps 1 1) (blankSurface true)
           (blankCanvas true) (linearPage 612 792) eq_refl eq_refl eq_refl).
Defined.

(** C3, as stated, fails: on a Letter page fitted to 884 at zoom 1.2 and
    density 2 the logical size is 1060 x 1372 and the backing store is
    2121 x 2745, while [floor(1060 * 2)] x [floor(1372 * 2)] is
    2120 x 2744. *)
Lemma backing_store_not_from_logical_size :
  let p := Sample.letterProps 1.2 2 in
  let after := snd (fst (renderPage p true (blankSurface true))) in
  (1 <=? dpr p) = true /\ (dpr p <=? 2) = true
  /\ getPage (pdf p) (pageNumber p) = Some (linearPage 612 792)
  /\ pageSize after
     = {| wCSS := Math_floor (612 * fitScale 884 612 1.2);
          hCSS := Math_floor (792 * fitScale 884 612 1.2) |}
  /\ exists c,
       canvasRef after = Some c
       /\ canvas_width c = 2121 /\ canvas_height c = 2745
       /\ Math_floor (wCSS (pageSize after) * dpr p) = 2120
       /\ Math_floor (hCSS (pageSize after) * dpr p) = 2744
       /\ canvas_width c <> Math_floor (wCSS (pageSize after) * dpr p)
       /\ canvas_height c <> Math_floor (hCSS (pageSize after) * dpr p).
Proof.
  cbv zeta. repeat split.
  eexists. split; [vm_compute; reflexivity|].
  repeat split; try (vm_compute; reflexivity).
  - intro H. apply (f_equal (fun x => x <? 2121)) in H.
    vm_compute in H. discriminate.
  - intro H. apply (f_equal (fun x => x <? 2745)) in H.
    vm_compute in H. discriminate.
Qed.

(** C3, amended.  For a page whose viewport is its native size times
    the scale, and for every device pixel density, the logical size is
    [floor(nativeWidth * scale)] x [floor(nativeHeight * scale)] and the
    backing store is [floor(nativeWidth * scale * d)] x
    [floor(nativeHeight * scale * d)]: the density multiplies the scaled
    size before it is floored, not the floored logical size. *)
Theorem backing_store_from_scaled_size
    (nativeWidth nativeHeight : float) (p : Props) (sf : Surface) (c : Canvas) :
  canvasRef sf = Some c ->
  getPage (pdf p) (pageNumber p) = Some (linearPage nativeWidth nativeHeight) ->
  context2d c = true ->
  let page := linearPage nativeWidth nativeHeight in
  let scale := fitScale (fitWidth p) (width (getViewport page 1)) (zoom p) in
  let after := snd (fst (renderPage p true sf)) in
  pageSize after = {| wCSS := Math_floor (nativeWidth * scale);
                      hCSS := Math_floor (nativeHeight * scale) |}
  /\ exists c',
       canvasRef after = Some c'
       /\ canvas_width c' = Math_floor (nativeWidth * scale * dpr p)
       /\ canvas_height c' = Math_floor (nativeHeight * scale * dpr p).
Proof.
  intros Hc Hp Hx page scale after. subst after.
  rewrite renderPage_unfold, Hc, Hp. cbv zeta. rewrite Hx. cbn.
  split; [reflexivity|]. eexists. repeat split.
Qed.

Lemma backing_store_from_scaled_size_witness :
  let after := snd (fst (renderPage (Sample.letterProps 1.2 2) true (blankSurface true))) in
  pageSize after = {| wCSS := 1060; hCSS := 1372 |}
  /\ exists c',
       canvasRef after = Some c'
       /\ canvas_width c' = 2121 /\ canvas_height c' = 2745.
Proof.
  exact (backing_store_from_scaled_size 612 792 (Sample.letterProps 1.2 2)
           (blankSurface true) (blankCanvas true) eq_refl eq_refl eq_refl).
Defined.

End Renderer.

(** ** The session controller *)

Section Session.

Import Viewer.

(** *** Zoom *)

Lemma zoomLevels_spec (k : Z) : (5 <= k <= 30)%Z -> In k zoomLevels.
Proof.
  intro H. unfold zoomLevels.
  replace k with (Z.of_nat (Z.to_nat k)) by lia.
  apply in_map, in_seq. lia.
Qed.

Lemma steps_on_grid (k : Z) : (5 <= k <= 30)%Z -> stepsOnGrid k = true.
Proof.
  intro H. apply zoomLevels_spec in H. revert k H.
  apply forallb_forall. vm_compute. reflexivity.
Qed.

Lemma zoom_on_grid (acts : list Action) :
  exists k, (5 <= k <= 30)%Z /\ zoom (session (run acts initialWorld)) = tenth k.
Proof.
  unfold run. rewrite <- fold_left_rev_right.
  induction (rev acts) as [|a l IH]; cbn [fold_right].
  - exists 10%Z. split; [lia | vm_compute; reflexivity].
  - destruct IH as (k & Hk & E).
    set (w := fold_right (fun y x => step x y) initialWorld l) in *.
    pose proof (steps_on_grid k Hk) as G. unfold stepsOnGrid in G.
    repeat (apply andb_prop in G; destruct G as [G ?]).
    apply FloatAxioms.Leibniz.eqb_spec in G.
    match goal with H : Leibniz.eqb _ _ = true |- _ =>
      apply FloatAxioms.Leibniz.eqb_spec in H; rename H into G' end.
    destruct a as [files|files|r| | | | |rw]; cbn [step].
    + exists k. split; [exact Hk|].
      unfold onInputChange, onInputChange_with.
      destruct (first files); [|exact E]. exact E.
    + exists k. split; [exact Hk|].
      unfold onDrop, onDrop_with.
      destruct (first files) as [f|]; [|exact E].
      destruct (type f =? "application/pdf")%string; exact E.
    + exists k. split; [exact Hk|].
      destruct (inflight w); [exact E|]. destruct r; exact E.
    + exists k. split; [exact Hk | exact E].
    + exists (Z.max 5 (k - 1)). split; [lia|]. cbn. rewrite E. exact G.
    + exists (Z.min 30 (k + 1)). split; [lia|]. cbn. rewrite E. exact G'.
    + exists 10%Z. split; [lia | vm_compute; reflexivity].
    + exists k. split; [exact Hk | exact E].
Qed.

(** C4. A zoom step moves the zoom by 0.1, rounds it to two decimals
    and clamps it: from the level [k/10], with [0.5 <= k/10 <= 3.0],
    zoom-out gives [(k-1)/10] but not less than 0.5 and zoom-in gives
    [(k+1)/10] but not more than 3.0; every zoom a session reaches is
    such a level, so it lies in [0.5, 3.0].  At the bounds the steps do
    nothing, however often they are applied. *)
Theorem zoom_stepping :
  (forall s,
      zoom (zoomOut s) = Math_max 0.5 (ToNumber (toFixed (zoom s - 0.1) 2))
      /\ zoom (zoomIn s) = Math_min 3 (ToNumber (toFixed (zoom s + 0.1) 2)))%float
  /\ (forall k, (5 <= k <= 30)%Z ->
        zoomOutStep (tenth k) = tenth (Z.max 5 (k - 1))
        /\ zoomInStep (tenth k) = tenth (Z.min 30 (k + 1)))
  /\ (forall acts,
        let z := zoom (session (run acts initialWorld)) in
        (exists k, (5 <= k <= 30)%Z /\ z = tenth k)
        /\ (0.5 <=? z)%float = true /\ (z <=? 3)%float = true)
  /\ (forall n s, zoom s = 0.5%float -> zoom (Nat.iter n zoomOut s) = 0.5%float)
  /\ (forall n s, zoom s = 3%float -> zoom (Nat.iter n zoomIn s) = 3%float).
Proof.
  split; [intro s; split; reflexivity|]. split; [|split; [|split]].
  - intros k Hk. pose proof (steps_on_grid k Hk) as G. unfold stepsOnGrid in G.
    repeat (apply andb_prop in G; destruct G as [G ?]).
    split; apply FloatAxioms.Leibniz.eqb_spec; assumption.
  - intros acts z. destruct (zoom_on_grid acts) as (k & Hk & E).
    fold z in E. split; [exists k; split; assumption|].
    pose proof (steps_on_grid k Hk) as G. unfold stepsOnGrid in G.
    repeat (apply andb_prop in G; destruct G as [G ?]).
    rewrite E. split; assumption.
  - intros n s H. induction n as [|n IH]; [exact H|].
    rewrite Nat.iter_succ.
    change (zoom (zoomOut (Nat.iter n zoomOut s))) with (zoomOutStep (zoom (Nat.iter n zoomOut s))).
    rewrite IH.
    vm_compute. reflexivity.
  - intros n s H. induction n as [|n IH]; [exact H|].
    rewrite Nat.iter_succ.
    change (zoom (zoomIn (Nat.iter n zoomIn s))) with (zoomInStep (zoom (Nat.iter n zoomIn s))).
    rewrite IH.
    vm_compute. reflexivity.
Qed.

Lemma zoom_stepping_witness :
  (zoomOutStep 0.7 = 0.6 /\ zoomInStep 0.7 = 0.8)%float
  /\ zoom (Nat.iter 4 zoomOut (Nat.iter 5 zoomOut initialState)) = 0.5%float
  /\ zoom (Nat.iter 7 zoomIn (Nat.iter 20 zoomIn initialState)) = 3%float.
Proof.
  split; [|split].
  - apply (proj1 (proj2 zoom_stepping) 7%Z). lia.
  - apply (proj1 (proj2 (proj2 (proj2 zoom_stepping))) 4%nat).
    vm_compute. reflexivity.
  - apply (proj2 (proj2 (proj2 (proj2 zoom_stepping))) 7%nat).
    vm_compute. reflexivity.
Defined.

(** *** Blob URLs *)

Lemma snoc_perm {A} (l : list A) (x : A) : Permutation (l ++ [x]) (x :: l).
Proof. symmetry. apply Permutation_cons_append. Qed.

Lemma balanced_initial : balanced initialWorld.
Proof.
  repeat split; cbn; [constructor | constructor | intros u []].
Qed.

Lemma balanced_begin (f : File) (w : World) :
  balanced w -> balanced (loadFile_begin (Some f) w).
Proof.
  intros (N & P & B). unfold balanced, held in *. cbn.
  assert (Fresh : ~ In (next (urls w)) (issued (urls w))).
  { intro I. apply B in I. lia. }
  assert (N' : forall r, issued r = issued (urls w) -> next r = next (urls w) ->
               NoDup (issued r ++ [next r])).
  { intros r E1 E2. rewrite E1, E2.
    apply (Permutation_NoDup (l := next (urls w) :: issued (urls w))).
    - symmetry. apply snoc_perm.
    - constructor; assumption. }
  assert (B' : forall u, In u (issued (urls w) ++ [next (urls w)]) ->
               (u < S (next (urls w)))%nat).
  { intros u I. apply in_app_or in I. destruct I as [I | [<- | []]]; [|lia].
    apply B in I. lia. }
  destruct (pdfUrl (session w)) as [u|]; cbn; (split; [apply N'; reflexivity|]);
    (split; [|exact B']).
  - eapply Permutation_trans; [apply snoc_perm|]. apply perm_skip.
    eapply Permutation_trans; [exact P|]. symmetry. apply snoc_perm.
  - eapply Permutation_trans; [apply snoc_perm|]. apply perm_skip. exact P.
Qed.

Lemma balanced_clear (w : World) : balanced w -> balanced (handleClear w).
Proof.
  intros (N & P & B). unfold balanced, held in *. cbn.
  destruct (pdfUrl (session w)) as [u|]; cbn; (split; [exact N|]);
    (split; [|exact B]).
  - eapply Permutation_trans; [exact P|]. symmetry. apply snoc_perm.
  - exact P.
Qed.

Lemma balanced_step (w : World) (a : Action) : balanced w -> balanced (step w a).
Proof.
  intro H. destruct a as [files|files|r| | | | |rw]; cbn [step].
  - unfold onInputChange, onInputChange_with.
    destruct (first files); [apply balanced_begin|]; exact H.
  - unfold onDrop, onDrop_with.
    destruct (first files) as [f|]; [|exact H].
    destruct (type f =? "application/pdf")%string; [apply balanced_begin|]; exact H.
  - destruct (inflight w); [exact H|]. destruct r; exact H.
  - apply balanced_clear. exact H.
  - exact H.
  - exact H.
  - exact H.
  - exact H.
Qed.

Lemma balanced_run (acts : list Action) :
  forall w, balanced w -> balanced (run acts w).
Proof.
  induction acts as [|a acts IH]; intros w H; [exact H|].
  apply IH, balanced_step, H.
Qed.

Lemma balanced_counts (w : World) (u : BlobUrl) :
  balanced w -> In u (issued (urls w)) ->
  count_occ Nat.eq_dec (revoked (urls w)) u
  = if in_dec Nat.eq_dec u (held w) then 0%nat else 1%nat.
Proof.
  intros (N & P & _) I.
  pose proof (Permutation_NoDup P N) as N'.
  pose proof (Permutation_in u P I) as I'.
  apply NoDup_app_remove_l in N' as Nr.
  destruct (in_dec Nat.eq_dec u (held w)) as [Hh | Hh].
  - apply count_occ_not_In. intro Ir.
    unfold held in *. destruct (pdfUrl (session w)) as [v|]; [|destruct Hh].
    destruct Hh as [<- | []]. cbn in N'. inversion N'. contradiction.
  - apply in_app_or in I'. destruct I' as [? | Ir]; [contradiction|].
    pose proof (proj1 (NoDup_count_occ Nat.eq_dec _) Nr u) as Le.
    pose proof (proj1 (count_occ_In Nat.eq_dec _ u) Ir) as Gt.
    lia.
Qed.

(** C6. Over any sequence of picks, drops, settled loads, clears and
    toolbar actions: a URL is only released after it was created; every
    created URL that the session no longer holds, because a later load
    replaced it or Clear ran, has been released exactly once; the one
    still held has not been released; and once Clear runs every created
    URL has been released exactly once. *)
Theorem blob_urls_released_once (acts : list Action) :
  let w := run acts initialWorld in
  (forall u, In u (revoked (urls w)) -> In u (issued (urls w)))
  /\ (forall u, In u (issued (urls w)) -> pdfUrl (session w) <> Some u ->
        count_occ Nat.eq_dec (revoked (urls w)) u = 1%nat)
  /\ (forall u, pdfUrl (session w) = Some u ->
        In u (issued (urls w))
        /\ count_occ Nat.eq_dec (revoked (urls w)) u = 0%nat)
  /\ (forall u, In u (issued (urls (handleClear w))) ->
        count_occ Nat.eq_dec (revoked (urls (handleClear w))) u = 1%nat).
Proof.
  intro w.
  assert (H : balanced w) by (apply balanced_run, balanced_initial).
  split; [|split; [|split]].
  - intros u I. destruct H as (_ & P & _).
    apply (Permutation_in u (Permutation_sym P)), in_or_app. right. exact I.
  - intros u I Hn. rewrite (balanced_counts w u H I).
    destruct (in_dec Nat.eq_dec u (held w)) as [Hh|]; [|reflexivity].
    unfold held in Hh. destruct (pdfUrl (session w)) as [v|]; [|destruct Hh].
    destruct Hh as [<- | []]. congruence.
  - intros u E.
    assert (I : In u (issued (urls w))).
    { destruct H as (_ & P & _). apply (Permutation_in u (Permutation_sym P)).
      unfold held. rewrite E. left. reflexivity. }
    split; [exact I|]. rewrite (balanced_counts w u H I).
    destruct (in_dec Nat.eq_dec u (held w)) as [|Hh]; [reflexivity|].
    exfalso. apply Hh. unfold held. rewrite E. left. reflexivity.
  - intros u I. rewrite (balanced_counts _ u (balanced_clear w H) I).
    reflexivity.
Qed.

Lemma blob_urls_released_once_witness :
  let w := run [Drop [Sample.report]; Settle (Some Sample.letterDoc);
                InputChange [Sample.slides]; Settle None] initialWorld in
  issued (urls w) = [0; 1]%nat /\ revoked (urls w) = [0]%nat
  /\ pdfUrl (session w) = Some 1%nat
  /\ count_occ Nat.eq_dec (revoked (urls w)) 0%nat = 1%nat
  /\ revoked (urls (handleClear w)) = [0; 1]%nat
  /\ count_occ Nat.eq_dec (revoked (urls (handleClear w))) 1%nat = 1%nat.
Proof.
  cbv zeta.
  split; [reflexivity|]. split; [reflexivity|]. split; [reflexivity|].
  split; [|split; [reflexivity|]].
  - apply (proj1 (proj2 (blob_urls_released_once
             [Drop [Sample.report]; Settle (Some Sample.letterDoc);
              InputChange [Sample.slides]; Settle None])) 0%nat).
    + vm_compute. left. reflexivity.
    + vm_compute. discriminate.
  - apply (proj2 (proj2 (proj2 (blob_urls_released_once
             [Drop [Sample.report]; Settle (Some Sample.letterDoc);
              InputChange [Sample.slides]; Settle None]))) 1%nat).
    vm_compute. right. left. reflexivity.
Defined.

(** *** Clear *)

(** C7, as stated, fails: Clear on the initial, empty session leaves
    the status at the message for a cleared session, which is not the
    initial placeholder. *)
Lemma clear_status_not_initial :
  isEmpty (session initialWorld)
  /\ status (session initialWorld) = "Henüz dosya seçilmedi."%string
  /\ status (session (handleClear initialWorld))
     = "Temizlendi. Yeni bir PDF yükleyin."%string
  /\ status (session (handleClear initialWorld)) <> status (session initialWorld).
Proof.
  split; [repeat split|]. split; [reflexivity|]. split; [reflexivity|].
  cbn. discriminate.
Qed.

(** C7, amended.  Clear on an empty session changes nothing but the
    status text: no URL is released, the session stays empty, and the
    status becomes the cleared-session message
    "Temizlendi. Yeni bir PDF yükleyin.". *)
Theorem clear_on_empty (w : World) :
  isEmpty (session w) ->
  handleClear w = onSession (setStatus clearedStatus) w
  /\ isEmpty (session (handleClear w))
  /\ urls (handleClear w) = urls w
  /\ status (session (handleClear w)) = clearedStatus.
Proof.
  intros (Hn & Hu & Hd & Hp).
  destruct w as [[fn st b u n d z cw] r k e]. cbn in *. subst.
  repeat split.
Qed.

Lemma clear_on_empty_witness :
  handleClear initialWorld = onSession (setStatus clearedStatus) initialWorld
  /\ isEmpty (session (handleClear initialWorld))
  /\ urls (handleClear initialWorld) = urls initialWorld
  /\ status (session (handleClear initialWorld)) = clearedStatus.
Proof.
  apply (clear_on_empty initialWorld). repeat split.
Defined.

(** *** Picking and dropping files *)

(** C8. A drop whose file is not of type application/pdf changes
    nothing: the session state, the status text, the URL allocator, the
    pending loads and the console are as before, whatever [loadFile]
    would have done. *)
Theorem drop_non_pdf_ignored (files : list File) (f : File) (w : World) :
  first files = Some f ->
  type f <> "application/pdf"%string ->
  step w (Drop files) = w
  /\ forall load, onDrop_with load files w = w.
Proof.
  intros Hf Ht. apply String.eqb_neq in Ht.
  split; [cbn [step]; unfold onDrop|intro load];
    unfold onDrop_with; rewrite Hf, Ht; reflexivity.
Qed.

Lemma drop_non_pdf_ignored_witness :
  step initialWorld (Drop [Sample.notes; Sample.report]) = initialWorld.
Proof.
  apply (drop_non_pdf_ignored [Sample.notes; Sample.report] Sample.notes initialWorld).
  - reflexivity.
  - vm_compute. discriminate.
Defined.

(** C10. Of several files picked or dropped at once only the first
    counts: the picker loads it, the drop zone loads it if it is a PDF,
    and the outcome is the same as if it had come alone. *)
Theorem only_first_file (f : File) (rest : list File) (w : World) :
  step w (InputChange (f :: rest)) = loadFile_begin (Some f) w
  /\ step w (Drop (f :: rest))
     = (if (type f =? "application/pdf")%string then loadFile_begin (Some f) w else w)
  /\ step w (InputChange (f :: rest)) = step w (InputChange [f])
  /\ step w (Drop (f :: rest)) = step w (Drop [f])
  /\ forall load,
       onInputChange_with load (f :: rest) w = onInputChange_with load [f] w
       /\ onDrop_with load (f :: rest) w = onDrop_with load [f] w.
Proof. repeat split. Qed.

(** *** Handle and page count *)

Lemma coherent_step (w : World) (a : Action) :
  coherent (session w) -> coherent (session (step w a)).
Proof.
  intro H. destruct a as [files|files|r| | | | |rw]; cbn [step].
  - unfold onInputChange, onInputChange_with.
    destruct (first files); [reflexivity | exact H].
  - unfold onDrop, onDrop_with.
    destruct (first files) as [f|]; [|exact H].
    destruct (type f =? "application/pdf")%string; [reflexivity | exact H].
  - destruct (inflight w); [exact H|]. destruct r; [reflexivity | exact H].
  - reflexivity.
  - exact H.
  - exact H.
  - exact H.
  - exact H.
Qed.

Lemma coherent_run (acts : list Action) :
  forall w, coherent (session w) -> coherent (session (run acts w)).
Proof.
  induction acts as [|a acts IH]; intros w H; [exact H|].
  apply IH, coherent_step, H.
Qed.

End Session.

(** ** Comparisons of doubles *)

Section Doubles.

Open Scope float_scope.

Lemma SFcompare_refl (x : spec_float) :
  x <> S754_nan -> SFcompare x x = Some Eq.
Proof.
  destruct x as [s|s| |s m e]; intro H; try congruence.
  - reflexivity.
  - destruct s; reflexivity.
  - cbn. rewrite Z.compare_refl.
    change (Pos.compare_cont Eq m m) with (Pos.compare m m).
    rewrite Pos.compare_refl. destruct s; reflexivity.
Qed.

Lemma SFcompare_antisym (x y : spec_float) :
  SFcompare y x = option_map CompOpp (SFcompare x y).
Proof.
  destruct x as [s|s| |s m e], y as [t|t| |t n f]; cbn;
    try reflexivity; try (destruct s; reflexivity);
    try (destruct t; reflexivity); try (destruct s, t; reflexivity).
  f_equal.
  change (Pos.compare_cont Eq n m) with (Pos.compare n m).
  change (Pos.compare_cont Eq m n) with (Pos.compare m n).
  rewrite (Z.compare_antisym e f), (Pos.compare_antisym m n).
  destruct s, t; try reflexivity;
    destruct (e ?= f)%Z; cbn; try reflexivity;
    destruct (m ?= n)%positive; reflexivity.
Qed.

Lemma is_nan_spec (x : float) : is_nan x = true <-> Prim2SF x = S754_nan.
Proof.
  unfold is_nan. rewrite FloatAxioms.eqb_spec. unfold SFeqb. split.
  - intro H. destruct (Prim2SF x) as [s|s| |s m e] eqn:E; try reflexivity;
      rewrite SFcompare_refl in H by congruence; discriminate.
  - intros ->. reflexivity.
Qed.

Lemma compare_defined (x y : float) :
  is_nan x = false -> is_nan y = false ->
  exists c, SFcompare (Prim2SF x) (Prim2SF y) = Some c.
Proof.
  intros Hx Hy.
  assert (Nx : Prim2SF x <> S754_nan).
  { intro E. apply is_nan_spec in E. congruence. }
  assert (Ny : Prim2SF y <> S754_nan).
  { intro E. apply is_nan_spec in E. congruence. }
  destruct (Prim2SF x) as [s|s| |s m e], (Prim2SF y) as [t|t| |t n f];
    try congruence; cbn; eexists; reflexivity.
Qed.

Lemma leb_refl (x : float) : is_nan x = false -> (x <=? x) = true.
Proof.
  intro H. rewrite FloatAxioms.leb_spec. unfold SFleb.
  rewrite SFcompare_refl; [reflexivity|].
  intro E. apply is_nan_spec in E. congruence.
Qed.

Lemma ltb_leb (x y : float) : (x <? y) = true -> (x <=? y) = true.
Proof.
  rewrite FloatAxioms.ltb_spec, FloatAxioms.leb_spec. unfold SFltb, SFleb.
  destruct (SFcompare (Prim2SF x) (Prim2SF y)) as [[| |]|]; congruence.
Qed.

Lemma not_ltb_leb (x y : float) :
  is_nan x = false -> is_nan y = false ->
  (x <? y) = false -> (y <=? x) = true.
Proof.
  intros Hx Hy. rewrite FloatAxioms.ltb_spec, FloatAxioms.leb_spec.
  unfold SFltb, SFleb. rewrite (SFcompare_antisym (Prim2SF x) (Prim2SF y)).
  destruct (compare_defined x y Hx Hy) as (c & ->).
  destruct c; cbn; congruence.
Qed.

Lemma leb_not_nan (x y : float) :
  (x <=? y) = true -> is_nan x = false /\ is_nan y = false.
Proof.
  rewrite FloatAxioms.leb_spec. unfold SFleb. intro H.
  split; apply not_true_is_false; intro N; apply is_nan_spec in N;
    rewrite N in H; [|destruct (Prim2SF x)]; discriminate.
Qed.

(** [Math.min] is NaN exactly when an argument is, and otherwise one of
    the arguments, below both. *)
Lemma Math_min_nan (a b : float) :
  is_nan (Math_min a b) = is_nan a || is_nan b.
Proof.
  unfold Math_min.
  destruct (is_nan a) eqn:Ha; [reflexivity|].
  destruct (is_nan b) eqn:Hb; [reflexivity|]. cbn [orb].
  destruct (a <? b); [exact Ha|]. destruct (b <? a); [exact Hb|].
  destruct (get_sign a); assumption.
Qed.

Lemma Math_max_nan (a b : float) :
  is_nan (Math_max a b) = is_nan a || is_nan b.
Proof.
  unfold Math_max.
  destruct (is_nan a) eqn:Ha; [reflexivity|].
  destruct (is_nan b) eqn:Hb; [reflexivity|]. cbn [orb].
  destruct (a <? b); [exact Hb|]. destruct (b <? a); [exact Ha|].
  destruct (get_sign a); assumption.
Qed.

Lemma Math_min_le (a b : float) :
  is_nan a = false -> is_nan b = false ->
  (Math_min a b <=? a) = true /\ (Math_min a b <=? b) = true.
Proof.
  intros Ha Hb. unfold Math_min. rewrite Ha, Hb. cbn [orb].
  destruct (a <? b) eqn:L1.
  - split; [apply leb_refl; exact Ha | apply ltb_leb; exact L1].
  - destruct (b <? a) eqn:L2.
    + split; [apply ltb_leb; exact L2 | apply leb_refl; exact Hb].
    + destruct (get_sign a).
      * split; [apply leb_refl; exact Ha | apply not_ltb_leb; assumption].
      * split; [apply not_ltb_leb; assumption | apply leb_refl; exact Hb].
Qed.

Lemma Math_max_ge (a b : float) :
  is_nan a = false -> is_nan b = false ->
  (a <=? Math_max a b) = true /\ (b <=? Math_max a b) = true.
Proof.
  intros Ha Hb. unfold Math_max. rewrite Ha, Hb. cbn [orb].
  destruct (a <? b) eqn:L1.
  - split; [apply ltb_leb; exact L1 | apply leb_refl; exact Hb].
  - destruct (b <? a) eqn:L2.
    + split; [apply leb_refl; exact Ha | apply ltb_leb; exact L2].
    + destruct (get_sign a).
      * split; [apply not_ltb_leb; assumption | apply leb_refl; exact Hb].
      * split; [apply leb_refl; exact Ha | apply not_ltb_leb; assumption].
Qed.

Lemma Math_min_picks (a b : float) :
  is_nan a = false -> is_nan b = false -> Math_min a b = a \/ Math_min a b = b.
Proof.
  intros Ha Hb. unfold Math_min. rewrite Ha, Hb. cbn [orb].
  destruct (a <? b); [left; reflexivity|]. destruct (b <? a); [right; reflexivity|].
  destruct (get_sign a); [left | right]; reflexivity.
Qed.

Lemma truthy_not_nan (x : float) : truthy x = true -> is_nan x = false.
Proof.
  unfold truthy. destruct (is_nan x); [discriminate | reflexivity].
Qed.

End Doubles.

(** ** Bounds kept by the clamps *)

Section Clamps.

Import Viewer Rest.
Open Scope float_scope.

Lemma onResize_capped (rw : float) (s : State) :
  is_nan rw = false -> (containerWidth (onResize rw s) <=? 1200) = true.
Proof.
  intro H. cbn. apply (Math_min_le 1200 rw); [reflexivity | exact H].
Qed.

Lemma run_snoc (acts : list Action) (a : Action) (w : World) :
  run (acts ++ [a]) w = step (run acts w) a.
Proof. unfold run. rewrite fold_left_app. reflexivity. Qed.

Lemma step_width (w : World) (a : Action) :
  containerWidth (session (step w a)) = containerWidth (session w)
  \/ exists rw, a = Resize rw
                /\ containerWidth (session (step w a)) = Math_min 1200 rw.
Proof.
  destruct a as [files|files|r| | | | |rw]; cbn [step];
    try (left; reflexivity).
  - left. unfold onInputChange, onInputChange_with.
    destruct (first files); reflexivity.
  - left. unfold onDrop, onDrop_with.
    destruct (first files) as [f|]; [|reflexivity].
    destruct (type f =? "application/pdf")%string; reflexivity.
  - left. destruct (inflight w); [reflexivity|]. destruct r; reflexivity.
  - right. exists rw. split; reflexivity.
Qed.

(** X2. The container width never exceeds the cap of 1200: after any
    actions whose resize reports are numbers (not NaN), the stored width
    is a number at most 1200. *)
Theorem container_width_capped (acts : list Action) :
  Forall (fun a => match a with
                   | Resize rw => is_nan rw = false
                   | _ => True
                   end) acts ->
  (containerWidth (session (run acts initialWorld)) <=? 1200) = true.
Proof.
  induction acts as [|a acts IH] using rev_ind; intro H; [reflexivity|].
  apply Forall_app in H. destruct H as [H1 H2]. inversion H2 as [|? ? Ha _]; subst.
  rewrite run_snoc.
  destruct (step_width (run acts initialWorld) a) as [E | (rw & -> & E)]; rewrite E.
  - apply IH, H1.
  - apply (Math_min_le 1200 rw); [reflexivity | exact Ha].
Qed.

Lemma container_width_capped_witness :
  (containerWidth
     (session (run [Resize 1440; Drop [Sample.report]; Resize 2560] initialWorld))
   <=? 1200) = true.
Proof.
  apply (container_width_capped [Resize 1440; Drop [Sample.report]; Resize 2560]).
  repeat constructor.
Defined.

(** X3. Whatever the device reports as pixel ratio (nothing, 0, NaN,
    any number), the density passed to the renderers is a number, never
    NaN, and at most 2. *)
Theorem dpr_capped (devicePixelRatio : option float) :
  is_nan (dprOf devicePixelRatio) = false
  /\ (dprOf devicePixelRatio <=? 2) = true.
Proof.
  destruct devicePixelRatio as [r|]; [|split; reflexivity]. unfold dprOf.
  assert (N : is_nan (if truthy r then r else 1) = false).
  { destruct (truthy r) eqn:T; [apply truthy_not_nan, T | reflexivity]. }
  split.
  - rewrite Math_min_nan, N. reflexivity.
  - apply Math_min_le; [exact N | reflexivity].
Qed.

(** X4. The base scale of a page is never below 0.1: whenever
    [fitWidth / nativeWidth] is a number, [Math.max(0.1, ...)] is a number
    at least 0.1 and at least that quotient, and the scale used is that
    base times the zoom. *)
Theorem base_scale_floor (fitWidth nativeWidth zoom : float) :
  is_nan (fitWidth / nativeWidth) = false ->
  exists baseScale,
    PageCanvas.fitScale fitWidth nativeWidth zoom = baseScale * zoom
    /\ is_nan baseScale = false
    /\ (0.1 <=? baseScale) = true
    /\ (fitWidth / nativeWidth <=? baseScale) = true.
Proof.
  intro H. exists (Math_max 0.1 (fitWidth / nativeWidth)).
  split; [reflexivity|]. split.
  - rewrite Math_max_nan, H. reflexivity.
  - apply Math_max_ge; [reflexivity | exact H].
Qed.

Lemma base_scale_floor_witness :
  exists baseScale,
    PageCanvas.fitScale 5 612 1 = baseScale * 1
    /\ is_nan baseScale = false
    /\ (0.1 <=? baseScale) = true
    /\ (5 / 612 <=? baseScale) = true.
Proof. apply (base_scale_floor 5 612 1). reflexivity. Defined.

(** X5. For every zoom value, reachable or not, a zoom-out step yields
    NaN or a number at least 0.5, and a zoom-in step yields NaN or a
    number at most 3; NaN only comes from a rounded value that is NaN. *)
Theorem zoom_steps_clamped (z : float) :
  is_nan (zoomOutStep z) = is_nan (ToNumber (toFixed (z - 0.1) 2))
  /\ is_nan (zoomInStep z) = is_nan (ToNumber (toFixed (z + 0.1) 2))
  /\ (is_nan (zoomOutStep z) = false -> (0.5 <=? zoomOutStep z) = true)
  /\ (is_nan (zoomInStep z) = false -> (zoomInStep z <=? 3) = true).
Proof.
  unfold zoomOutStep, zoomInStep. rewrite Math_max_nan, Math_min_nan.
  split; [reflexivity|]. split; [reflexivity|]. split; intro H.
  - apply Math_max_ge; [reflexivity | exact H].
  - apply Math_min_le; [reflexivity | exact H].
Qed.

Lemma zoom_steps_clamped_witness :
  (0.5 <=? zoomOutStep 0.2) = true /\ (zoomInStep 40 <=? 3) = true.
Proof.
  split.
  - apply (proj1 (proj2 (proj2 (zoom_steps_clamped 0.2)))). reflexivity.
  - apply (proj2 (proj2 (proj2 (zoom_steps_clamped 40)))). reflexivity.
Defined.

End Clamps.

(** ** Zoom levels *)

Section ZoomLevels.

Import Viewer Rest.
Open Scope float_scope.

Lemma grid_steps (k : Z) :
  (5 <= k <= 30)%Z ->
  zoomOutStep (tenth k) = tenth (Z.max 5 (k - 1))
  /\ zoomInStep (tenth k) = tenth (Z.min 30 (k + 1)).
Proof.
  intro Hk. pose proof (steps_on_grid k Hk) as G. unfold stepsOnGrid in G.
  repeat (apply andb_prop in G; destruct G as [G ?]).
  split; apply FloatAxioms.Leibniz.eqb_spec; assumption.
Qed.

Lemma setZoom_same (f : float -> float) (s : State) :
  f (zoom s) = zoom s -> setZoom f s = s.
Proof. intro H. destruct s. unfold setZoom. cbn in *. rewrite H. reflexivity. Qed.

Lemma label_on_grid (k : Z) :
  (5 <= k <= 30)%Z ->
  toFixed (tenth k * 100) 0 = TxtDecimal false (10 * k) 0.
Proof.
  intro H. apply zoomLevels_spec in H. unfold zoomLevels in H. cbn in H.
  repeat (destruct H as [<- | H]; [vm_compute; reflexivity|]).
  destruct H.
Qed.

(** X6. Zoom-in and zoom-out undo each other exactly, with no drift: in
    every session state reached, zooming in and then out gives back the
    same state unless the zoom is at the cap 3, and zooming out and then
    in gives it back unless the zoom is at the floor 0.5. *)
Theorem zoom_round_trip (acts : list Action) :
  let s := session (run acts initialWorld) in
  (zoom s <> 3 -> zoomOut (zoomIn s) = s)
  /\ (zoom s <> 0.5 -> zoomIn (zoomOut s) = s).
Proof.
  intro s. destruct (zoom_on_grid acts) as (k & Hk & E). fold s in E.
  split; intro H.
  - assert (K : (k <= 29)%Z).
    { destruct (Z.eq_dec k 30) as [->|]; [|lia]. exfalso. apply H. rewrite E.
      vm_compute. reflexivity. }
    change (zoomOut (zoomIn s)) with (setZoom (fun z => zoomOutStep (zoomInStep z)) s).
    apply setZoom_same. rewrite E.
    rewrite (proj2 (grid_steps k Hk)).
    rewrite (proj1 (grid_steps (Z.min 30 (k + 1)) ltac:(lia))).
    f_equal. lia.
  - assert (K : (6 <= k)%Z).
    { destruct (Z.eq_dec k 5) as [->|]; [|lia]. exfalso. apply H. rewrite E.
      vm_compute. reflexivity. }
    change (zoomIn (zoomOut s)) with (setZoom (fun z => zoomInStep (zoomOutStep z)) s).
    apply setZoom_same. rewrite E.
    rewrite (proj1 (grid_steps k Hk)).
    rewrite (proj2 (grid_steps (Z.max 5 (k - 1)) ltac:(lia))).
    f_equal. lia.
Qed.

Lemma zoom_round_trip_witness :
  let s := session (run [ZoomIn; ZoomIn; ZoomOut] initialWorld) in
  zoomOut (zoomIn s) = s /\ zoomIn (zoomOut s) = s.
Proof.
  cbv zeta. split.
  - apply (proj1 (zoom_round_trip [ZoomIn; ZoomIn; ZoomOut])).
    intro H. apply (f_equal (fun x => x <? 3)) in H. vm_compute in H. discriminate.
  - apply (proj2 (zoom_round_trip [ZoomIn; ZoomIn; ZoomOut])).
    intro H. apply (f_equal (fun x => 0.5 <? x)) in H. vm_compute in H. discriminate.
Defined.

(** X7. The zoom read-out of the toolbar is always a whole multiple of
    ten percent between 50 and 300: in every session state reached the
    zoom is a level [k/10] and [(zoom*100).toFixed(0)] is the numeral of
    [10k]. *)
Theorem zoom_label_exact (acts : list Action) :
  exists k,
    (5 <= k <= 30)%Z
    /\ zoom (session (run acts initialWorld)) = tenth k
    /\ zoomLabel (session (run acts initialWorld)) = TxtDecimal false (10 * k) 0.
Proof.
  destruct (zoom_on_grid acts) as (k & Hk & E).
  exists k. split; [exact Hk|]. split; [exact E|].
  unfold zoomLabel. rewrite E. apply label_on_grid, Hk.
Qed.

End ZoomLevels.

(** ** More on the renderer *)

Section Redraws.

Import PageCanvas Rest.
Open Scope float_scope.

Lemma deps_same_iff (p q : Props) (v w : bool) :
  deps_same p q v w = true <->
  handle (pdf p) = handle (pdf q) /\ pageNumber p = pageNumber q
  /\ fitWidth p = fitWidth q /\ zoom p = zoom q /\ dpr p = dpr q /\ v = w.
Proof.
  unfold deps_same, Object_is.
  rewrite !andb_true_iff, !Nat.eqb_eq, !FloatAxioms.Leibniz.eqb_spec.
  rewrite Bool.eqb_true_iff. tauto.
Qed.

Lemma deps_same_trans (p q r : Props) (u v w : bool) :
  deps_same q r v w = true ->
  deps_same p r u w = deps_same p q u v.
Proof.
  intro H. apply deps_same_iff in H.
  destruct H as (H1 & H2 & H3 & H4 & H5 & H6).
  unfold deps_same. rewrite H1, H2, H3, H4, H5, H6. reflexivity.
Qed.

(** What an event does to a settled instance: nothing but taking the
    new values when no dependency changed, one run of [renderPage] with
    the new values otherwise. *)
Lemma react_settled_instance (i : Instance) (ev : Event) :
  settled i ->
  react i ev =
  let j := receive i ev in
  if deps_same (props j) (props i) (visible j) (visible i)
  then (j, [])
  else
    let '(_, sf, cs) := renderPage (props j) (visible j) (surface i) in
    ({| props := props j; visible := visible j; surface := sf;
        committed := Some (props j, visible j) |}, cs).
Proof.
  intros [H _]. unfold react, commit.
  destruct (committed i) as [[q w]|] eqn:E; [|contradiction].
  assert (C : committed (receive i ev) = Some (q, w)) by (destruct ev; exact E).
  assert (S : surface (receive i ev) = surface i) by (destruct ev; reflexivity).
  cbv zeta. rewrite C, S.
  rewrite (deps_same_trans (props (receive i ev)) (props i) q
             (visible (receive i ev)) (visible i) w H).
  reflexivity.
Qed.

(** X8. A visible renderer redraws exactly when an input changes.  When
    the parent re-renders it with props that are the same document, page
    number, fit width, zoom and density, nothing is called and the
    surface stays; when one of them differs, the page is fetched once for
    the new props and, the fetch and the 2d context given, drawn once
    with the new scale and density. *)
Theorem redraw_iff_input_changed (i : Instance) (p : Props) :
  settled i -> visible i = true ->
  let calls := snd (react i (Rerender p)) in
  let after := fst (react i (Rerender p)) in
  (deps_same p (props i) true true = true ->
     calls = [] /\ surface after = surface i /\ props after = p)
  /\ (deps_same p (props i) true true = false ->
       filter is_getPage calls = [getPage_call (handle (pdf p)) (pageNumber p)]
       /\ forall c page,
            canvasRef (surface i) = Some c -> context2d c = true ->
            getPage (pdf p) (pageNumber p) = Some page ->
            filter is_render calls
            = [render_call
                 (getViewport page
                    (fitScale (fitWidth p) (width (getViewport page 1)) (zoom p)))
                 [dpr p; 0; 0; dpr p; 0; 0]]).
Proof.
  intros Hs Hv calls after. subst calls after.
  rewrite (react_settled_instance i (Rerender p) Hs). cbn [receive props visible].
  rewrite Hv. split; intro D; rewrite D.
  - repeat split.
  - destruct Hs as [_ Hc]. rewrite renderPage_unfold.
    destruct (canvasRef (surface i)) as [c|] eqn:Ec; [|congruence].
    destruct (getPage (pdf p) (pageNumber p)) as [page|] eqn:Ep.
    + cbv zeta. destruct (context2d c) eqn:Ex; (split; [reflexivity|]);
        intros c0 page0 H0 Hx Hp; inversion H0; inversion Hp; subst;
        [reflexivity | congruence].
    + split; [reflexivity|]. intros c0 page0 _ _ Hp. discriminate.
Qed.

Lemma redraw_iff_input_changed_witness :
  let i := fst (react (fst (mount (Sample.letterProps 1 1) true)) (Intersect true)) in
  snd (react i (Rerender (Sample.letterProps 1 1))) = []
  /\ filter is_render (snd (react i (Rerender (Sample.letterProps 1.2 2))))
     = [render_call {| width := 1060.8; height := 1372.8 |} [2; 0; 0; 2; 0; 0]].
Proof.
  cbv zeta.
  assert (S : settled (fst (react (fst (mount (Sample.letterProps 1 1) true))
                              (Intersect true)))).
  { split; [vm_compute; reflexivity | vm_compute; discriminate]. }
  split.
  - apply (proj1 (redraw_iff_input_changed _ (Sample.letterProps 1 1) S eq_refl)).
    vm_compute. reflexivity.
  - refine (proj2 (proj2 (redraw_iff_input_changed _ (Sample.letterProps 1.2 2)
                            S eq_refl) _) _ (linearPage 612 792) _ _ _);
      vm_compute; reflexivity.
Defined.

Lemma renderPage_begin_unfold (p : Props) (v : bool) (sf : Surface) :
  renderPage_begin p v sf =
  match v, canvasRef sf with
  | true, Some _ => (Next tt, sf, [getPage_call (handle (pdf p)) (pageNumber p)])
  | _, _ => (Return, sf, [])
  end.
Proof. destruct sf as [[c|] ps], v; reflexivity. Qed.

Lemma renderPage_resume_unfold (p : Props) (fetched : option PDFPageProxy)
    (sf : Surface) :
  renderPage_resume p fetched sf =
  match fetched with
  | None => (Reject, sf, [])
  | Some page =>
      let scale := fitScale (fitWidth p) (width (getViewport page 1)) (zoom p) in
      let vp := getViewport page scale in
      match canvasRef sf with
      | None => (Reject, sf, [getViewport_call 1; getViewport_call scale])
      | Some c =>
          if context2d c
          then ((if render page vp [dpr p; 0; 0; dpr p; 0; 0]
                 then Next tt else Reject),
                {| canvasRef := Some
                     {| canvas_width := Math_floor (width vp * dpr p);
                        canvas_height := Math_floor (height vp * dpr p);
                        style_width := Some (px (Math_floor (width vp)));
                        style_height := Some (px (Math_floor (height vp)));
                        context2d := true |};
                   pageSize := {| wCSS := Math_floor (width vp);
                                  hCSS := Math_floor (height vp) |} |},
                [getViewport_call 1; getViewport_call scale; getContext_call;
                 render_call vp [dpr p; 0; 0; dpr p; 0; 0]])
          else (Return, sf,
                [getViewport_call 1; getViewport_call scale; getContext_call])
      end
  end.
Proof.
  destruct fetched as [page|]; [|reflexivity].
  destruct sf as [[c|] ps]; [|reflexivity].
  unfold renderPage_resume, bind, await_page, readCanvasRef; cbn.
  destruct c as [cw ch sw sh ctx]; cbn.
  destruct ctx; [|reflexivity].
  destruct (render page _ _); reflexivity.
Qed.

(** X9. The surface is written exactly when [page.render] is called.
    The part of a run before its fetch settles writes nothing and draws
    nothing.  The part after it either leaves canvas and page size
    untouched and never calls [page.render] (fetch rejected, no canvas,
    no 2d context), or sets all four canvas sizes and the page size from
    one viewport and calls [page.render] exactly once with that viewport;
    the run then ends as [page.render] does: it resolves, or it rejects
    with the canvas already resized. *)
Theorem render_writes_iff_draws (p : Props) :
  (forall v sf,
      let '(_, after, calls) := renderPage_begin p v sf in
      after = sf /\ filter is_render calls = [])
  /\ (forall fetched sf,
        let '(o, after, calls) := renderPage_resume p fetched sf in
        (after = sf /\ filter is_render calls = [] /\ o <> Next tt)
        \/ (exists page vp,
              fetched = Some page
              /\ filter is_render calls = [render_call vp [dpr p; 0; 0; dpr p; 0; 0]]
              /\ after =
                 {| canvasRef := Some
                      {| canvas_width := Math_floor (width vp * dpr p);
                         canvas_height := Math_floor (height vp * dpr p);
                         style_width := Some (px (Math_floor (width vp)));
                         style_height := Some (px (Math_floor (height vp)));
                         context2d := true |};
                    pageSize := {| wCSS := Math_floor (width vp);
                                   hCSS := Math_floor (height vp) |} |}
              /\ o = if render page vp [dpr p; 0; 0; dpr p; 0; 0]
                     then Next tt else Reject)).
Proof.
  split.
  - intros v sf. rewrite renderPage_begin_unfold.
    destruct v, (canvasRef sf); split; reflexivity.
  - intros fetched sf. rewrite renderPage_resume_unfold.
    destruct fetched as [page|]; [|left; repeat split; discriminate].
    cbv zeta. destruct (canvasRef sf) as [c|]; [|left; repeat split; discriminate].
    destruct (context2d c); [|left; repeat split; discriminate].
    right. eexists. eexists. repeat split.
Qed.

(** A draw that fails leaves the canvas resized: the third outcome. *)
Example failed_draw_leaves_sizes :
  renderPage_resume
    {| pdf := Sample.brokenDoc; pageNumber := 1; fitWidth := 884; zoom := 1; dpr := 1 |}
    (Some (brokenPage 612 792)) (blankSurface true)
  = (Reject,
     {| canvasRef := Some {| canvas_width := 884; canvas_height := 1144;
                             style_width := Some (px 884);
                             style_height := Some (px 1144);
                             context2d := true |};
        pageSize := {| wCSS := 884; hCSS := 1144 |} |},
     [getViewport_call 1; getViewport_call (884 / 612); getContext_call;
      render_call {| width := 884; height := 1144 |} [1; 0; 0; 1; 0; 0]]).
Proof. vm_compute. reflexivity. Qed.

(** X10. A completed draw overwrites the surface wholesale: what an
    earlier run left on it, with whatever props, does not show in the
    result, which is the one the later draw gives on its own.  Running
    [renderPage] again with the same inputs changes nothing further. *)
Theorem draw_overwrites (p q : Props) (v : bool) (sf : Surface) (c : Canvas)
    (page : PDFPageProxy) :
  canvasRef sf = Some c -> context2d c = true ->
  getPage (pdf q) (pageNumber q) = Some page ->
  snd (fst (renderPage q true (snd (fst (renderPage p v sf)))))
  = snd (fst (renderPage q true sf))
  /\ renderPage q true (snd (fst (renderPage q true sf))) = renderPage q true sf.
Proof.
  intros Hc Hx Hq.
  assert (K : forall sf' c', canvasRef sf' = Some c' -> context2d c' = true ->
              renderPage q true sf' = renderPage q true sf).
  { intros sf' c' Hc' Hx'. rewrite !renderPage_unfold, Hc, Hc', Hq. cbv zeta.
    rewrite Hx, Hx'. reflexivity. }
  assert (A : forall r, exists c', canvasRef (snd (fst (renderPage r v sf))) = Some c'
                                   /\ context2d c' = true).
  { intro r. rewrite renderPage_unfold.
    destruct v; [|exists c; split; assumption]. rewrite Hc.
    destruct (getPage (pdf r) (pageNumber r)); [|exists c; split; assumption].
    cbv zeta. rewrite Hx. eexists. split; reflexivity. }
  split.
  - destruct (A p) as (c' & Hc' & Hx'). rewrite (K _ c' Hc' Hx'). reflexivity.
  - assert (B : exists c', canvasRef (snd (fst (renderPage q true sf))) = Some c'
                           /\ context2d c' = true).
    { rewrite renderPage_unfold, Hc, Hq. cbv zeta. rewrite Hx.
      eexists. split; reflexivity. }
    destruct B as (c' & Hc' & Hx'). apply (K _ c' Hc' Hx').
Qed.

Lemma draw_overwrites_witness :
  snd (fst (renderPage (Sample.letterProps 1 1) true
              (snd (fst (renderPage (Sample.letterProps 1.2 2) true (blankSurface true))))))
  = snd (fst (renderPage (Sample.letterProps 1 1) true (blankSurface true))).
Proof.
  apply (proj1 (draw_overwrites (Sample.letterProps 1.2 2) (Sample.letterProps 1 1)
                  true (blankSurface true) (blankCanvas true) (linearPage 612 792)
                  eq_refl eq_refl eq_refl)).
Defined.

(** X11. The frame around the canvas reserves the fit width until a
    draw has completed, and afterwards is exactly as wide as the canvas
    is styled, provided that width is a nonzero number. *)
Theorem frame_matches_canvas (p : Props) (sf : Surface) (c : Canvas)
    (page : PDFPageProxy) :
  canvasRef sf = Some c -> context2d c = true ->
  getPage (pdf p) (pageNumber p) = Some page ->
  let vp := getViewport page
              (fitScale (fitWidth p) (width (getViewport page 1)) (zoom p)) in
  let after := snd (fst (renderPage p true sf)) in
  (forall ctx, frameWidth p (blankSurface ctx) = fitWidth p)
  /\ (truthy (Math_floor (width vp)) = true ->
       exists c', canvasRef after = Some c'
                  /\ style_width c' = Some (px (frameWidth p after)))
  /\ (truthy (Math_floor (width vp)) = false -> frameWidth p after = fitWidth p).
Proof.
  intros Hc Hx Hp vp after. subst after.
  rewrite renderPage_unfold, Hc, Hp. cbv zeta. rewrite Hx. cbn [fst snd].
  split; [reflexivity|]. unfold frameWidth. cbn [pageSize wCSS canvasRef].
  fold vp. split; intro T; rewrite T; [|reflexivity].
  eexists. split; reflexivity.
Qed.

Lemma frame_matches_canvas_witness :
  exists c',
    canvasRef (snd (fst (renderPage (Sample.letterProps 1.2 2) true (blankSurface true))))
    = Some c'
    /\ style_width c'
       = Some (px (frameWidth (Sample.letterProps 1.2 2)
                     (snd (fst (renderPage (Sample.letterProps 1.2 2) true
                                  (blankSurface true)))))).
Proof.
  apply (proj1 (proj2 (frame_matches_canvas (Sample.letterProps 1.2 2)
                         (blankSurface true) (blankCanvas true) (linearPage 612 792)
                         eq_refl eq_refl eq_refl))).
  vm_compute. reflexivity.
Defined.

End Redraws.

(** ** The intersection observer's batches *)

Section Batches.

Import PageCanvas Rest.

Lemma last_default {A} (es : list A) :
  forall b d d', last (b :: es) d = last (b :: es) d'.
Proof.
  induction es as [|c es IH]; intros b d d'; [reflexivity|].
  change (last (c :: es) d = last (c :: es) d'). apply IH.
Qed.

Lemma intersectionObserved_last (entries : list bool) (v : bool) :
  intersectionObserved entries v = last entries v.
Proof.
  unfold intersectionObserved. revert v.
  induction entries as [|e es IH]; intro v; [reflexivity|].
  cbn [fold_left]. rewrite IH. destruct es as [|b es]; [reflexivity|].
  change (last (e :: b :: es) v) with (last (b :: es) v). apply last_default.
Qed.

(** X19. A batch of intersection entries counts as its last entry.  If
    the batch is empty or ends on the visibility the renderer already
    has, nothing happens: same instance, no call.  If it ends on
    intersecting while the renderer is hidden, however many entries came
    before, the page is fetched exactly once. *)
Theorem batch_counts_as_last_entry (i : Instance) (entries : list bool) :
  settled i ->
  (last entries (visible i) = visible i -> observe i entries = (i, []))
  /\ (visible i = false -> last entries false = true ->
       visible (fst (observe i entries)) = true
       /\ filter is_getPage (snd (observe i entries))
          = [getPage_call (handle (pdf (props i))) (pageNumber (props i))]).
Proof.
  intro Hs. unfold observe. rewrite intersectionObserved_last.
  rewrite (react_settled_instance i _ Hs). cbn [receive props visible].
  split.
  - intro L. rewrite L, deps_same_refl. destruct i. reflexivity.
  - intros Hv L. rewrite Hv, L.
    replace (deps_same (props i) (props i) true false) with false
      by (symmetry; apply (deps_same_flip (props i) (props i) false false),
            deps_same_refl).
    destruct Hs as [_ Hc]. rewrite renderPage_unfold.
    destruct (canvasRef (surface i)) as [c|]; [|congruence].
    destruct (getPage (pdf (props i)) (pageNumber (props i))); [|split; reflexivity].
    cbv zeta. destruct (context2d c); split; reflexivity.
Qed.

Lemma batch_counts_as_last_entry_witness :
  let i := fst (mount (Sample.letterProps 1 1) true) in
  observe i [true; false] = (i, [])
  /\ filter is_getPage (snd (observe i [false; true; false; true])) = [getPage_call 1 1].
Proof.
  cbv zeta.
  assert (S : settled (fst (mount (Sample.letterProps 1 1) true))).
  { split; [vm_compute; reflexivity | vm_compute; discriminate]. }
  split.
  - apply (proj1 (batch_counts_as_last_entry _ [true; false] S)). reflexivity.
  - apply (proj2 (batch_counts_as_last_entry _ [false; true; false; true] S));
      reflexivity.
Defined.

End Batches.

(** ** More on the session *)

Section Sessions.

Import Viewer Rest.

Lemma run_app (a b : list Action) (w : World) :
  run (a ++ b) w = run b (run a w).
Proof. unfold run. apply fold_left_app. Qed.

Lemma step_cases (w : World) (a : Action) :
  (begins a = true /\ exists f, step w a = loadFile_begin (Some f) w)
  \/ (begins a = false
      /\ ((exists r k, a = Settle r /\ inflight w = S k
                       /\ step w a = loadFile_settle r w)
          \/ (a = Clear /\ step w a = handleClear w)
          \/ (exists g, step w a = onSession g w
                        /\ forall s, fileName (g s) = fileName s
                                     /\ status (g s) = status s
                                     /\ isBusy (g s) = isBusy s
                                     /\ pdfUrl (g s) = pdfUrl s
                                     /\ numPages (g s) = numPages s
                                     /\ pdfDoc (g s) = pdfDoc s))).
Proof.
  assert (Id : exists g, w = onSession g w
                        /\ forall s, fileName (g s) = fileName s
                                     /\ status (g s) = status s
                                     /\ isBusy (g s) = isBusy s
                                     /\ pdfUrl (g s) = pdfUrl s
                                     /\ numPages (g s) = numPages s
                                     /\ pdfDoc (g s) = pdfDoc s).
  { exists (fun s => s). split; [|intro s; repeat split].
    destruct w. reflexivity. }
  destruct a as [files|files|r| | | | |rw]; cbn [step begins].
  - unfold onInputChange, onInputChange_with.
    destruct (first files) as [f|] eqn:F.
    + left. split; [reflexivity | exists f; reflexivity].
    + right. split; [reflexivity|]. right. right. exact Id.
  - unfold onDrop, onDrop_with.
    destruct (first files) as [f|] eqn:F.
    + destruct (type f =? "application/pdf")%string eqn:T.
      * left. split; [reflexivity | exists f; reflexivity].
      * right. split; [reflexivity|]. right. right. exact Id.
    + right. split; [reflexivity|]. right. right. exact Id.
  - right. split; [reflexivity|]. destruct (inflight w) as [|k] eqn:K.
    + right. right. exact Id.
    + left. exists r, k. repeat split.
  - right. split; [reflexivity|]. right. left. split; reflexivity.
  - right. split; [reflexivity|]. right. right. eexists. split; [reflexivity|].
    intro s. repeat split.
  - right. split; [reflexivity|]. right. right. eexists. split; [reflexivity|].
    intro s. repeat split.
  - right. split; [reflexivity|]. right. right. eexists. split; [reflexivity|].
    intro s. repeat split.
  - right. split; [reflexivity|]. right. right. eexists. split; [reflexivity|].
    intro s. repeat split.
Qed.

(** *** Blob URLs, in order *)

Lemma inOrder_step (w : World) (a : Action) :
  inOrder w ->
  inOrder (step w a)
  /\ next (urls (step w a)) = ((if begins a then 1 else 0) + next (urls w))%nat.
Proof.
  intros [N O]. unfold inOrder, held in *.
  destruct (step_cases w a) as [[B (f & E)] | [B [(r & k & _ & _ & E) | [[_ E] | (g & E & G)]]]];
    rewrite E, B; clear E.
  - cbn -[seq]. destruct (pdfUrl (session w)) as [u|]; cbn -[seq];
      rewrite seq_S, <- N; cbn -[seq]; rewrite ?app_nil_r in *;
      repeat split; rewrite <- O; reflexivity.
  - destruct r; cbn; repeat split; assumption.
  - cbn. destruct (pdfUrl (session w)) as [u|]; cbn;
      rewrite ?app_nil_r in *; repeat split; assumption.
  - cbn. destruct (G (session w)) as (_ & _ & _ & -> & _). repeat split; assumption.
Qed.

(** X12. Blob URLs are issued one per load begun and released oldest
    first: after any actions, the URLs issued are numbered 0, 1, ... up
    to the number of loads begun, and they are the released ones, in
    that order, followed by the one the session holds.  So at most one
    URL, the newest, is ever unreleased. *)
Theorem blob_urls_in_order (acts : list Action) :
  let w := run acts initialWorld in
  issued (urls w) = seq 0 (List.length (filter begins acts))
  /\ issued (urls w) = (revoked (urls w) ++ held w)%list
  /\ (List.length (issued (urls w)) - List.length (revoked (urls w)) <= 1)%nat.
Proof.
  assert (H : inOrder (run acts initialWorld)
              /\ next (urls (run acts initialWorld)) = List.length (filter begins acts)).
  { induction acts as [|a acts IH] using rev_ind.
    - repeat split.
    - destruct IH as [IH N]. rewrite run_snoc.
      destruct (inOrder_step (run acts initialWorld) a IH) as [I' N'].
      split; [exact I'|]. rewrite N', N, filter_app, length_app. cbn.
      destruct (begins a); cbn; lia. }
  intro w. destruct H as [[N O] L]. fold w in N, O, L.
  split; [rewrite N, L; reflexivity|]. split; [exact O|].
  rewrite O at 1. rewrite length_app. unfold held.
  destruct (pdfUrl (session w)); cbn; lia.
Qed.

(** *** Clear, busy flag, file name *)

(** X13. Clear always ends in the empty session, whatever was loaded,
    loading or failed: no file name, no URL held, no document, no pages,
    toolbar and page list gone; a second Clear changes nothing more, so
    it releases no URL again.  Clear does not cancel a load that is
    still pending: when that load settles with a document, the document
    and its pages are shown, with no file name and no URL held. *)
Theorem clear_empties (w : World) :
  (isEmpty (session (handleClear w))
   /\ held (handleClear w) = []
   /\ toolbarShown (session (handleClear w)) = false
   /\ (forall dpr, pages dpr (session (handleClear w)) = [])
   /\ handleClear (handleClear w) = handleClear w)
  /\ (inflight w <> 0%nat ->
      forall d,
        let s := session (step (handleClear w) (Settle (Some d))) in
        pdfDoc s = Some d /\ numPages s = PdfJs.numPages d
        /\ toolbarShown s = true
        /\ fileName s = None /\ pdfUrl s = None).
Proof.
  split; [repeat split|]. intros H d. cbn [step handleClear inflight].
  destruct (inflight w); [congruence|]. repeat split.
Qed.

Lemma clear_empties_witness :
  let w := run [Drop [Sample.report]; Drop [Sample.slides];
                Settle (Some Sample.letterDoc)] initialWorld in
  let s := session (step (handleClear w) (Settle (Some Sample.letterDoc))) in
  toolbarShown s = true /\ fileName s = None.
Proof.
  cbv zeta.
  pose proof (proj2 (clear_empties
                (run [Drop [Sample.report]; Drop [Sample.slides];
                      Settle (Some Sample.letterDoc)] initialWorld))
                ltac:(vm_compute; discriminate) Sample.letterDoc) as H.
  cbv zeta in H. destruct H as (_ & _ & T & F & _). split; assumption.
Defined.

(** X14. The busy flag is only up while a load is pending: in every
    state reached, with loads overlapping or not, [isBusy] implies that
    some [loadFile] still awaits pdf.js. *)
Theorem busy_only_while_loading (acts : list Action) :
  let w := run acts initialWorld in
  isBusy (session w) = true -> (0 < inflight w)%nat.
Proof.
  induction acts as [|a acts IH] using rev_ind; intro w; subst w.
  - discriminate.
  - rewrite run_snoc. set (w := run acts initialWorld) in *. cbv zeta in IH.
    destruct (step_cases w a)
      as [[_ (f & E)] | [_ [(r & k & _ & K & E) | [[_ E] | (g & E & G)]]]];
      rewrite E; clear E.
    + intros _. cbn. lia.
    + destruct r; cbn; discriminate.
    + exact IH.
    + cbn. destruct (G (session w)) as (_ & _ & -> & _). exact IH.
Qed.

Lemma busy_only_while_loading_witness :
  (0 < inflight (run [Drop [Sample.report]; ZoomIn] initialWorld))%nat.
Proof.
  apply (busy_only_while_loading [Drop [Sample.report]; ZoomIn]). reflexivity.
Defined.

(** X15. The file name line and the blob URL go together: in every
    state reached a file name is shown exactly when the session holds a
    URL. *)
Theorem file_name_iff_url (acts : list Action) :
  let s := session (run acts initialWorld) in
  fileName s = None <-> pdfUrl s = None.
Proof.
  induction acts as [|a acts IH] using rev_ind; intro s; subst s.
  - split; reflexivity.
  - rewrite run_snoc. set (w := run acts initialWorld) in *. cbv zeta in IH.
    destruct (step_cases w a)
      as [[_ (f & E)] | [_ [(r & k & _ & K & E) | [[_ E] | (g & E & G)]]]];
      rewrite E; clear E.
    + cbn. split; discriminate.
    + destruct r; exact IH.
    + split; reflexivity.
    + cbn. destruct (G (session w)) as (-> & _ & _ & -> & _). exact IH.
Qed.

(** *** The page list *)

(** X16. The page list follows the document held: in every state
    reached there are as many renderers as the page count says, none
    without a document; their page numbers are 1, 2, ... in order, so
    their keys are distinct; and all of them get the container width
    less 16 as fit width, the session's zoom and the density. *)
Theorem page_list (acts : list Action) (dpr : float) :
  let s := session (run acts initialWorld) in
  List.length (pages dpr s) = numPages s
  /\ map PageCanvas.pageNumber (pages dpr s) = seq 1 (numPages s)
  /\ NoDup (map PageCanvas.pageNumber (pages dpr s))
  /\ Forall (fun q => PageCanvas.fitWidth q = (containerWidth s - 16)%float
                      /\ PageCanvas.zoom q = zoom s
                      /\ PageCanvas.dpr q = dpr) (pages dpr s).
Proof.
  intro s.
  assert (C : coherent s) by (apply coherent_run; reflexivity).
  assert (M : map PageCanvas.pageNumber (pages dpr s) = seq 1 (numPages s)).
  { unfold pages, coherent in *. destruct (pdfDoc s) as [d|].
    - rewrite map_map. cbn. apply map_id.
    - rewrite C. reflexivity. }
  split; [|split; [exact M | split]].
  - rewrite <- (length_map PageCanvas.pageNumber), M. apply length_seq.
  - rewrite M. apply seq_NoDup.
  - unfold pages. destruct (pdfDoc s) as [d|]; [|constructor].
    apply Forall_forall. intros q I. apply in_map_iff in I.
    destruct I as (n & <- & _). repeat split.
Qed.

(** *** One load at a time *)

Lemma loadedStatus_other (n : nat) :
  loadedStatus n <> initialStatus /\ loadedStatus n <> clearedStatus
  /\ loadedStatus n <> failedStatus.
Proof. repeat split; discriminate. Qed.

Lemma atRest_load (f : File) (r : option PDFDocumentProxy) (w : World) :
  atRest w -> atRest (step (loadFile_begin (Some f) w) (Settle r)).
Proof.
  intros (I & _ & _). unfold atRest. cbn [step loadFile_begin inflight].
  destruct r as [d|]; cbn; rewrite I; (split; [reflexivity|]);
    (split; [reflexivity|]); right.
  - right. exists d. repeat split; discriminate.
  - left. repeat split; discriminate.
Qed.

Lemma atRest_onSession (g : State -> State) (w : World) :
  (forall s, fileName (g s) = fileName s /\ status (g s) = status s
             /\ isBusy (g s) = isBusy s /\ pdfUrl (g s) = pdfUrl s
             /\ numPages (g s) = numPages s /\ pdfDoc (g s) = pdfDoc s) ->
  atRest w -> atRest (onSession g w).
Proof.
  intros G H. unfold atRest, isEmpty in *. cbn [session onSession inflight].
  destruct (G (session w)) as (-> & -> & -> & -> & -> & ->). exact H.
Qed.

Lemma atRest_gesture (g : Gesture) (w : World) :
  atRest w -> atRest (run (expand g) w).
Proof.
  intro H. pose proof H as (I & B & _).
  destruct g as [files r|files r| | | | |widths]; cbn [expand run fold_left].
  - cbn [step]. unfold onInputChange, onInputChange_with.
    destruct (first files) as [f|].
    + apply atRest_load, H.
    + cbn [step]. rewrite I. exact H.
  - cbn [step]. unfold onDrop, onDrop_with.
    destruct (first files) as [f|].
    + destruct (type f =? "application/pdf")%string.
      * apply atRest_load, H.
      * cbn [step]. rewrite I. exact H.
    + cbn [step]. rewrite I. exact H.
  - unfold atRest, isEmpty. cbn. rewrite I.
    split; [reflexivity|]. split; [exact B|]. left.
    repeat split. right. reflexivity.
  - apply atRest_onSession; [intro s; repeat split | exact H].
  - apply atRest_onSession; [intro s; repeat split | exact H].
  - apply atRest_onSession; [intro s; repeat split | exact H].
  - destruct widths as [|rw rest]; [exact H|].
    apply atRest_onSession; [intro s; repeat split | exact H].
Qed.

(** X17. With one load at a time the session is a four-state machine.
    After any gestures, each load left to settle before the next one,
    nothing is pending and the busy flag is down, and the session is
    either empty with the initial or the cleared status, or failed (the
    failure status, no document, a file name and a URL), or loaded (a
    document, its page count, the status naming that count, a file name
    and a URL).  So the toolbar is shown exactly when the status line
    says a document is loaded. *)
Theorem one_load_at_a_time (gs : list Gesture) :
  let w := runAlone gs initialWorld in
  atRest w
  /\ (toolbarShown (session w) = true
      <-> exists n, status (session w) = loadedStatus n).
Proof.
  intro w.
  assert (R : atRest w).
  { subst w. induction gs as [|g gs IH] using rev_ind.
    - unfold atRest, isEmpty. cbn. repeat split. left. repeat split.
      left. reflexivity.
    - unfold runAlone in *. rewrite flat_map_app, run_app. cbn [flat_map].
      rewrite app_nil_r. apply atRest_gesture, IH. }
  split; [exact R|]. destruct R as (_ & _ & C). unfold toolbarShown.
  destruct C as [[(_ & _ & D & _) [S | S]] | [(S & D & _) | (d & D & _ & S & _)]];
    rewrite D.
  - split; [discriminate|]. intros (n & E). rewrite S in E.
    destruct (loadedStatus_other n) as (X & _). congruence.
  - split; [discriminate|]. intros (n & E). rewrite S in E.
    destruct (loadedStatus_other n) as (_ & X & _). congruence.
  - split; [discriminate|]. intros (n & E). rewrite S in E.
    destruct (loadedStatus_other n) as (_ & _ & X). congruence.
  - split; [|reflexivity]. intros _. exists (PdfJs.numPages d). exact S.
Qed.

(** X18. A load starts from scratch: apart from the blob URL, the
    session a [loadFile] leaves behind, successful or not, depends on the
    session before it only through the zoom and the container width.  A
    failed or abandoned earlier load therefore never shows in a later
    one. *)
Theorem load_starts_from_scratch
    (getDocument : File -> option PDFDocumentProxy) (f : File) (w1 w2 : World) :
  zoom (session w1) = zoom (session w2) ->
  containerWidth (session w1) = containerWidth (session w2) ->
  setPdfUrl None (session (loadFile getDocument (Some f) w1))
  = setPdfUrl None (session (loadFile getDocument (Some f) w2)).
Proof.
  destruct w1 as [[fn1 st1 b1 u1 n1 d1 z1 c1] r1 k1 e1].
  destruct w2 as [[fn2 st2 b2 u2 n2 d2 z2 c2] r2 k2 e2].
  cbn [session zoom containerWidth]. intros -> ->. unfold loadFile.
  destruct (getDocument f) as [d|]; reflexivity.
Qed.

Lemma load_starts_from_scratch_witness :
  setPdfUrl None
    (session (loadFile (fun _ => Some Sample.letterDoc) (Some Sample.report)
                (run [Drop [Sample.slides]; Settle None] initialWorld)))
  = setPdfUrl None
      (session (loadFile (fun _ => Some Sample.letterDoc) (Some Sample.report)
                  initialWorld)).
Proof.
  apply (load_starts_from_scratch (fun _ => Some Sample.letterDoc) Sample.report);
    reflexivity.
Defined.

End Sessions.

(** ** The lazy import *)

Section LazyImport.

Import Rest.

Lemma ensureEach_cached (m : PdfjsModule) (n : nat) :
  forall imported,
    ensureEach imported {| _pdfjs := Some m; imports := n |}
    = (repeat (Some m) (List.length imported), {| _pdfjs := Some m; imports := n |}).
Proof.
  induction imported as [|i rest IH]; [reflexivity|].
  cbn. rewrite IH. reflexivity.
Qed.

Lemma ensureEach_failing (n k : nat) :
  ensureEach (repeat None n) {| _pdfjs := None; imports := k |}
  = (repeat None n, {| _pdfjs := None; imports := (n + k)%nat |}).
Proof.
  revert k. induction n as [|n IH]; intro k; [reflexivity|].
  cbn. rewrite IH. repeat f_equal. lia.
Qed.

(** X1. pdf.js is imported until it has loaded once and never again.
    Calls whose import fails each report the failure and leave the cache
    empty, so the next call tries again; the first call whose import
    succeeds sets the worker to /pdf.worker.min.mjs and caches the
    module; every later call returns that same module without importing,
    however its own import would have gone. *)
Theorem pdfjs_imported_once (failures : nat) (m : PdfjsModule)
    (later : list (option PdfjsModule)) :
  let loaded := {| moduleId := moduleId m; workerSrc := "/pdf.worker.min.mjs" |} in
  ensureEach (repeat None failures ++ Some m :: later) freshLoader
  = ((repeat None failures ++ repeat (Some loaded) (S (List.length later)))%list,
     {| _pdfjs := Some loaded; imports := S failures |}).
Proof.
  intro loaded.
  assert (A : forall a b l,
             ensureEach (a ++ b) l
             = let (r1, l1) := ensureEach a l in
               let (r2, l2) := ensureEach b l1 in ((r1 ++ r2)%list, l2)).
  { induction a as [|i a IH]; intros b l; cbn.
    - destruct (ensureEach b l). reflexivity.
    - destruct (ensurePdfjs i l) as [r l1]. rewrite IH.
      destruct (ensureEach a l1) as [r1 l2]. destruct (ensureEach b l2).
      reflexivity. }
  rewrite A. unfold freshLoader. rewrite ensureEach_failing.
  cbn [ensureEach ensurePdfjs _pdfjs imports]. fold loaded.
  rewrite ensureEach_cached. rewrite Nat.add_0_r. reflexivity.
Qed.

End LazyImport.

(** ** Runs in flight *)

Section InFlight.

Import PageCanvas.
Open Scope float_scope.

(** What an event does when runs may be in flight: nothing but taking
    the new values when no dependency changed; otherwise the guard is
    evaluated and, visible and with a canvas, a fetch is issued and the
    run joins the suspended ones. *)
Lemma start_settled (r : Running) (ev : Event) :
  settled (current r) ->
  start r ev =
  let j := receive (current r) ev in
  if deps_same (props j) (props (current r)) (visible j) (visible (current r))
  then ({| current := j; suspended := suspended r |}, [])
  else
    ({| current := {| props := props j; visible := visible j;
                      surface := surface (current r);
                      committed := Some (props j, visible j) |};
        suspended := suspended r ++ (if visible j then [props j] else []) |},
     if visible j then [getPage_call (handle (pdf (props j))) (pageNumber (props j))]
     else []).
Proof.
  intros [H Hc]. unfold start, begin_commit. cbn [current suspended].
  destruct (committed (current r)) as [[q w]|] eqn:E; [|contradiction].
  assert (C : committed (receive (current r) ev) = Some (q, w))
    by (destruct ev; exact E).
  assert (S : surface (receive (current r) ev) = surface (current r))
    by (destruct ev; reflexivity).
  cbv zeta. rewrite C, S.
  rewrite (deps_same_trans (props (receive (current r) ev)) (props (current r)) q
             (visible (receive (current r) ev)) (visible (current r)) w H).
  destruct (deps_same (props (receive (current r) ev)) (props (current r))
              (visible (receive (current r) ev)) (visible (current r)));
    [reflexivity|].
  rewrite renderPage_begin_unfold.
  destruct (canvasRef (surface (current r))) as [c|]; [|congruence].
  destruct (visible (receive (current r) ev)); reflexivity.
Qed.

Lemma start_keeps_settled (r : Running) (ev : Event) :
  settled (current r) -> settled (current (fst (start r ev))).
Proof.
  intro H. rewrite (start_settled r ev H). cbv zeta.
  destruct H as [H Hc].
  destruct (deps_same _ _ _ _) eqn:D; cbn [fst current].
  - split; [|destruct ev; exact Hc].
    destruct (committed (current r)) as [[q w]|] eqn:E; [|contradiction].
    replace (committed (receive (current r) ev)) with (Some (q, w))
      by (destruct ev; symmetry; exact E).
    rewrite (deps_same_trans _ (props (current r)) q _ (visible (current r)) w H).
    exact D.
  - split; [apply deps_same_refl | exact Hc].
Qed.

Lemma resume_keeps_settled (r : Running) (k : nat) :
  settled (current r) -> settled (current (fst (resume r k))).
Proof.
  intros [H Hc]. unfold resume.
  destruct (nth_error (suspended r) k) as [q|]; [|split; assumption].
  rewrite renderPage_resume_unfold.
  destruct (getPage (pdf q) (pageNumber q)) as [page|]; [|split; assumption].
  cbv zeta. destruct (canvasRef (surface (current r))) as [c|] eqn:Ec; [|congruence].
  destruct (context2d c); split; cbn; try exact H; try congruence.
Qed.

Lemma ticks_keep_settled (ts : list Tick) :
  forall r, settled (current r) -> settled (current (fst (ticks r ts))).
Proof.
  induction ts as [|t ts IH]; intros r H; [exact H|].
  cbn [ticks].
  assert (H1 : settled (current (fst (tick r t)))).
  { destruct t; [apply start_keeps_settled | apply resume_keeps_settled]; exact H. }
  destruct (tick r t) as [r1 cs1]. specialize (IH r1 H1).
  destruct (ticks r1 ts) as [r2 cs2]. exact IH.
Qed.

Lemma mounted_settled (p : Props) (ctx : bool) : settled (current (mounted p ctx)).
Proof. split; [apply deps_same_refl | cbn; congruence]. Qed.

(** With nothing else in between, beginning a run and letting its fetch
    settle is the uninterrupted [react]. *)
Lemma uninterrupted_is_react (r : Running) (ev : Event) :
  settled (current r) -> suspended r = [] ->
  let (r1, cs1) := start r ev in
  let (r2, cs2) := resume r1 0 in
  current r2 = fst (react (current r) ev)
  /\ cs1 ++ cs2 = snd (react (current r) ev)
  /\ suspended r2 = [].
Proof.
  intros H Hs. rewrite (start_settled r ev H), (react_settled_instance _ ev H).
  cbv zeta. rewrite Hs.
  destruct (deps_same _ _ _ _); [repeat split|].
  set (j := receive (current r) ev).
  rewrite renderPage_unfold. destruct H as [_ Hc].
  destruct (visible j); [|repeat split].
  unfold resume. cbn [app suspended nth_error current surface props visible committed].
  rewrite renderPage_resume_unfold.
  destruct (canvasRef (surface (current r))) as [c|] eqn:Ec; [|congruence].
  destruct (getPage (pdf (props j)) (pageNumber (props j))) as [page|];
    [|repeat split].
  cbv zeta. destruct (context2d c); repeat split.
Qed.

(** C5, as stated, fails: a run begun while the renderer was visible is
    not cancelled.  The renderer is shown, so a fetch is issued; it is
    hidden again before the fetch settles; when the fetch settles, with
    the visibility signal false, the canvas is resized from 300 x 150 to
    884 x 1144 and [page.render] is called. *)
Lemma hidden_renderer_still_draws :
  let r0 := mounted (Sample.letterProps 1 1) true in
  let r1 := fst (tick r0 (Happens (Intersect true))) in
  let r2 := fst (tick r1 (Happens (Intersect false))) in
  let r3 := fst (tick r2 (Fetched 0)) in
  visible (current r2) = false
  /\ canvasRef (surface (current r2)) = Some (blankCanvas true)
  /\ visible (current r3) = false
  /\ snd (tick r2 (Fetched 0))
     = [getViewport_call 1; getViewport_call (884 / 612); getContext_call;
        render_call {| width := 884; height := 1144 |} [1; 0; 0; 1; 0; 0]]
  /\ canvasRef (surface (current r3))
     = Some {| canvas_width := 884; canvas_height := 1144;
               style_width := Some (px 884); style_height := Some (px 1144);
               context2d := true |}.
Proof. repeat split; vm_compute; reflexivity. Qed.

(** C5, amended.  A renderer starts no draw while its visibility signal
    is false: a run begun then returns at the guard, with no page fetch,
    nothing suspended and the surface untouched, and so does every event
    that leaves the renderer hidden.  When the signal turns true exactly
    one run begins, with the current props: the page is fetched once and
    the run waits for it; a repeated signal and a re-render with the same
    dependencies begin no other.  When the fetch of a suspended run
    settles, the run goes on whatever the signal is by then: given the
    page and a 2d context, it sizes the canvas and calls [page.render]
    exactly once, with the viewport, scale and density of the props it
    began with.  Every state reached from a mount is settled, as these
    statements assume. *)
Theorem hidden_starts_no_run_shown_starts_one :
  (forall p sf, renderPage_begin p false sf = (Return, sf, []))
  /\ (forall p ctx ts, settled (current (fst (ticks (mounted p ctx) ts))))
  /\ (forall r ev,
        settled (current r) -> visible (receive (current r) ev) = false ->
        snd (start r ev) = []
        /\ suspended (fst (start r ev)) = suspended r
        /\ surface (current (fst (start r ev))) = surface (current r))
  /\ (forall r,
        settled (current r) -> visible (current r) = false ->
        let p := props (current r) in
        let shown := fst (start r (Intersect true)) in
        snd (start r (Intersect true))
        = [getPage_call (handle (pdf p)) (pageNumber p)]
        /\ suspended shown = suspended r ++ [p]
        /\ props (current shown) = p /\ visible (current shown) = true
        /\ surface (current shown) = surface (current r)
        /\ start shown (Intersect true) = (shown, [])
        /\ begin_commit shown = (shown, []))
  /\ (forall r k q c page,
        nth_error (suspended r) k = Some q ->
        canvasRef (surface (current r)) = Some c -> context2d c = true ->
        getPage (pdf q) (pageNumber q) = Some page ->
        let vp := getViewport page
                    (fitScale (fitWidth q) (width (getViewport page 1)) (zoom q)) in
        let done := fst (resume r k) in
        filter is_getPage (snd (resume r k)) = []
        /\ filter is_render (snd (resume r k))
           = [render_call vp [dpr q; 0; 0; dpr q; 0; 0]]
        /\ visible (current done) = visible (current r)
        /\ S (List.length (suspended done)) = List.length (suspended r)
        /\ exists c',
             canvasRef (surface (current done)) = Some c'
             /\ canvas_width c' = Math_floor (width vp * dpr q)
             /\ canvas_height c' = Math_floor (height vp * dpr q)
             /\ style_width c' = Some (px (Math_floor (width vp)))
             /\ style_height c' = Some (px (Math_floor (height vp)))).
Proof.
  split; [intros p sf; rewrite renderPage_begin_unfold; reflexivity|].
  split; [intros p ctx ts; apply ticks_keep_settled, mounted_settled|].
  split; [|split].
  - intros r ev Hs Hv. rewrite (start_settled r ev Hs). cbv zeta. rewrite Hv.
    destruct (deps_same _ _ _ _); cbn [fst snd current suspended surface];
      rewrite ?app_nil_r; repeat split; destruct ev; reflexivity.
  - intros r Hs Hv p shown.
    assert (St : settled (current shown)) by (apply start_keeps_settled, Hs).
    assert (E : start r (Intersect true)
                = ({| current := {| props := p; visible := true;
                                    surface := surface (current r);
                                    committed := Some (p, true) |};
                      suspended := suspended r ++ [p] |},
                   [getPage_call (handle (pdf p)) (pageNumber p)])).
    { rewrite (start_settled r _ Hs). cbn [receive props visible]. rewrite Hv.
      replace (deps_same (props (current r)) (props (current r)) true false)
        with false
        by (symmetry; apply (deps_same_flip _ _ false false), deps_same_refl).
      reflexivity. }
    subst shown. rewrite E in St |- *. cbn [fst snd] in St |- *.
    cbn [current suspended props visible surface].
    repeat split.
    + rewrite (start_settled _ (Intersect true) St).
      cbn [receive current props visible]. rewrite deps_same_refl. reflexivity.
    + unfold begin_commit. cbn [current committed props visible].
      rewrite deps_same_refl. reflexivity.
  - intros r k q c page Hk Hc Hx Hp vp done. subst done. unfold resume.
    rewrite Hk, Hp, renderPage_resume_unfold. cbv zeta. rewrite Hc, Hx.
    cbn [fst snd current suspended visible surface canvasRef].
    split; [reflexivity|]. split; [reflexivity|]. split; [reflexivity|]. split.
    + apply nth_error_split in Hk. destruct Hk as (l1 & l2 & E & L).
      rewrite E. rewrite <- L at 1. rewrite firstn_app, firstn_all, Nat.sub_diag.
      cbn [firstn]. rewrite app_nil_r.
      replace (S k) with (List.length (l1 ++ [q])) by (rewrite length_app, L; cbn; lia).
      replace (l1 ++ q :: l2) with ((l1 ++ [q]) ++ l2) by (rewrite <- app_assoc; reflexivity).
      rewrite skipn_app, skipn_all, Nat.sub_diag. cbn [skipn app].
      rewrite !length_app. cbn. lia.
    + eexists. repeat split.
Qed.

Lemma hidden_starts_no_run_shown_starts_one_witness :
  let r0 := mounted (Sample.letterProps 1 1) true in
  let r1 := fst (start r0 (Intersect true)) in
  let r2 := fst (start r1 (Intersect false)) in
  snd (start r0 (Rerender (Sample.letterProps 1.2 1))) = []
  /\ snd (start r0 (Intersect true)) = [getPage_call 1 1]
  /\ filter is_render (snd (resume r2 0))
     = [render_call {| width := 884; height := 1144 |} [1; 0; 0; 1; 0; 0]].
Proof.
  cbv zeta.
  assert (S0 : settled (current (mounted (Sample.letterProps 1 1) true))).
  { split; [vm_compute; reflexivity | vm_compute; discriminate]. }
  split; [|split].
  - apply (proj1 (proj2 (proj2 hidden_starts_no_run_shown_starts_one)) _ _ S0).
    reflexivity.
  - exact (proj1 (proj1 (proj2 (proj2 (proj2 hidden_starts_no_run_shown_starts_one)))
                    _ S0 eq_refl)).
  - exact (proj1 (proj2
             (proj2 (proj2 (proj2 (proj2 hidden_starts_no_run_shown_starts_one)))
                (fst (start (fst (start (mounted (Sample.letterProps 1 1) true)
                                    (Intersect true)))
                        (Intersect false)))
                0%nat (Sample.letterProps 1 1) (blankCanvas true) (linearPage 612 792)
                eq_refl eq_refl eq_refl eq_refl))).
Defined.

End InFlight.

(** ** Handle, page count and the load in charge *)

Section Handles.

Import Viewer Rest.







End Handles.
